(** * VVAS Razorpay backend: pricing, offers and the signed thank-you contract

    A shallow embedding of the checkout core of the Express server (the
    current revision of the server file, the one that defines
    [signThankYouV1] and the thank-you contract store): the pricing
    helpers [computeOneTimePrice] and [computeEnterprisePrice], the pricing
    lines of the starter/pro order route, the offers engine
    [loadOffers] / [validateOfferForPlan] / [applyOffer], and the
    thank-you signature, contract store and retrieval route.

    Modelling conventions.
    - A JavaScript string is a [string] (a list of 8-bit characters); the
      case mappings and [trim] act on the ASCII range and leave every other
      character alone.
    - A JavaScript number is an exact rational [Q]; [Math.round] is
      [Math_round], rounding half up to an integer.  NaN and the infinities
      are outside the model: a value that is [undefined] or not a number is
      [None].  The section on binary64 arithmetic recomputes the products of
      the price tables with IEEE 754 doubles and finds the same integers.
    - The price tables are object literals, so a property read follows the
      prototype chain: [get_property] finds own keys first and the members
      of [Object.prototype] after them.
    - [Number] (string to number), [crypto.createHmac] and the clock are
      not code of the repository; the development is parametric in them. *)

From Stdlib Require Import ZArith QArith Qround Qabs String Ascii List Bool Lia.
From Stdlib Require Import SpecFloat.
From Stdlib.Strings Require Import Byte.
From stdpp Require Import gmap strings.
Import ListNotations.

Local Open Scope Z_scope.

(** ** JavaScript strings *)

(** [WhiteSpace] and [LineTerminator] code points of the ASCII range, the ones
    [String.prototype.trim] strips. *)
Definition isWhiteSpace (c : ascii) : bool :=
  match N_of_ascii c with
  | 9%N | 10%N | 11%N | 12%N | 13%N | 32%N => true
  | _ => false
  end.

Fixpoint dropWhile (p : ascii -> bool) (s : string) : string :=
  match s with
  | EmptyString => EmptyString
  | String c s' => if p c then dropWhile p s' else s
  end.

(** Removes the longest suffix whose characters all satisfy [p]. *)
Fixpoint dropWhileEnd (p : ascii -> bool) (s : string) : string :=
  match s with
  | EmptyString => EmptyString
  | String c s' =>
      match dropWhileEnd p s' with
      | EmptyString => if p c then EmptyString else String c EmptyString
      | t => String c t
      end
  end.

(** [s.trim()] *)
Definition trim (s : string) : string :=
  dropWhileEnd isWhiteSpace (dropWhile isWhiteSpace s).

Definition toUpperChar (c : ascii) : ascii :=
  let n := N_of_ascii c in
  if ((97 <=? n) && (n <=? 122))%N then ascii_of_N (n - 32) else c.

Definition toLowerChar (c : ascii) : ascii :=
  let n := N_of_ascii c in
  if ((65 <=? n) && (n <=? 90))%N then ascii_of_N (n + 32) else c.

Fixpoint mapString (f : ascii -> ascii) (s : string) : string :=
  match s with
  | EmptyString => EmptyString
  | String c s' => String (f c) (mapString f s')
  end.

(** Every character of [s] satisfies [p]. *)
Fixpoint stringAll (p : ascii -> bool) (s : string) : bool :=
  match s with
  | EmptyString => true
  | String c s' => p c && stringAll p s'
  end.

(** [s.toUpperCase()] and [s.toLowerCase()] *)
Definition toUpperCase : string -> string := mapString toUpperChar.
Definition toLowerCase : string -> string := mapString toLowerChar.

(** [(x || dflt)] for a value that is a string when it is defined: the empty
    string is falsy. *)
Definition orString (x : option string) (dflt : string) : string :=
  match x with
  | Some EmptyString | None => dflt
  | Some s => s
  end.

(** [!x] for such a value. *)
Definition falsyString (x : option string) : bool :=
  match x with
  | Some EmptyString | None => true
  | Some _ => false
  end.

(** [arr.includes(x)] on an array of strings. *)
Definition includes (arr : list string) (x : string) : bool :=
  existsb (String.eqb x) arr.


(** ** JavaScript numbers *)

(** [Math.round(x)]: the integer nearest to [x], ties going up. *)
Definition Math_round (x : Q) : Z := Qfloor (x + (1 # 2)).

(** [x < y] *)
Definition Qltb (x y : Q) : bool := negb (Qle_bool y x).

(** ** Property reads on an object literal *)

(** The names every plain object inherits from [Object.prototype]. *)
Definition Object_prototype_members : list string :=
  [ "constructor"; "__defineGetter__"; "__defineSetter__"; "hasOwnProperty";
    "__lookupGetter__"; "__lookupSetter__"; "isPrototypeOf";
    "propertyIsEnumerable"; "toString"; "valueOf"; "__proto__";
    "toLocaleString" ].

(** What [obj[key]] evaluates to for an object literal whose own values are
    numbers. *)
Inductive property : Type :=
  | OwnNumber (n : Q)
  | Inherited (member : string)
  | Undefined.

Fixpoint ownProperty (obj : list (string * Q)) (key : string) : option Q :=
  match obj with
  | [] => None
  | (k, v) :: rest => if String.eqb k key then Some v else ownProperty rest key
  end.

Definition get_property (obj : list (string * Q)) (key : string) : property :=
  match ownProperty obj key with
  | Some v => OwnNumber v
  | None => if includes Object_prototype_members key then Inherited key else Undefined
  end.

(** ** Pricing helpers *)

(** The object [{ base, gst, total }] the pricing helpers return. *)
Record Quote : Type := mkQuote { base : Q; gst : Q; total : Q }.

(** How a pricing helper ends.  [NonNumeric m]: the table read produced the
    inherited member [m] of [Object.prototype], so [base] is that object,
    [gst] is NaN and [total] is a string; no number is returned. *)
Inductive priced : Type :=
  | Priced (q : Quote)
  | NonNumeric (member : string)
  | Thrown (message : string).

Definition ONE_TIME_PLAN_PRICES : list (string * Q) :=
  [ ("PLAN_CALL", 5000%Q); ("PLAN_60", 40000%Q); ("PLAN_90", 50000%Q);
    ("PLAN_120", 55000%Q) ].

Definition STARTER_PRO_PLAN_PRICES : list (string * Q) :=
  [ ("SP_STARTER", 15000%Q); ("SP_PRO", 30000%Q) ].

Definition ENTERPRISE_BASE_PRICES : list (string * Q) :=
  [ ("60", 40000%Q); ("90", 50000%Q); ("120", 55000%Q);
    ("consultation", 5000%Q) ].

(** The rate literals of the source. *)
Definition GST_RATE : Q := 0.18%Q.
Definition YEARLY_FACTOR : Q := 0.8%Q.

(** A value that is a number or an inherited member of [Object.prototype]. *)
Inductive baseValue : Type :=
  | BaseNumber (n : Q)
  | BaseObject (member : string).

(** [p ?? d]: only [undefined] is replaced. *)
Definition nullish (p : property) (d : Q) : baseValue :=
  match p with
  | OwnNumber n => BaseNumber n
  | Inherited m => BaseObject m
  | Undefined => BaseNumber d
  end.

(** The value of [base] after the override test of [computeOneTimePrice].
    [customBasePrice] is [Some c] when [typeof customBasePrice === "number"]
    holds with value [c]. *)
Definition oneTimeBase (planId : string) (customBasePrice : option Q) : baseValue :=
  let base0 := nullish (get_property ONE_TIME_PLAN_PRICES planId) 0%Q in
  match customBasePrice with
  | Some c => if Qltb 0 c then BaseNumber c else base0
  | None => base0
  end.

(** An override that is missing or not positive fails the test
    [typeof customBasePrice === "number" && customBasePrice > 0]. *)
Definition noOverride (customBasePrice : option Q) : Prop :=
  match customBasePrice with
  | Some c => (c <= 0)%Q
  | None => True
  end.

(** [computeOneTimePrice(planId, customBasePrice)] *)
Definition computeOneTimePrice (planId : string) (customBasePrice : option Q) : priced :=
  match oneTimeBase planId customBasePrice with
  | BaseNumber b =>
      let g := inject_Z (Math_round (b * GST_RATE)) in
      Priced {| base := b; gst := g; total := (b + g)%Q |}
  | BaseObject m => NonNumeric m
  end.

(** [(country || "").trim().toLowerCase() === "india"] *)
Definition isIndia (country : option string) : bool :=
  String.eqb (toLowerCase (trim (orString country ""))) "india".

(** [(billingType || "monthly").toLowerCase()] *)
Definition billingLower (billingType : option string) : string :=
  toLowerCase (orString billingType "monthly").

(** [Math.round(yearlyBeforeDiscount * 0.8)] with
    [yearlyBeforeDiscount = baseMonthly * 12]. *)
Definition yearlyBase (baseMonthly : Q) : Q :=
  let yearlyBeforeDiscount := (baseMonthly * 12)%Q in
  inject_Z (Math_round (yearlyBeforeDiscount * YEARLY_FACTOR)).

(** [isIndia ? Math.round(base * 0.18) : 0], then [{ base, gst, total }]. *)
Definition withGst (india : bool) (b : Q) : Quote :=
  let g := if india then inject_Z (Math_round (b * GST_RATE)) else 0%Q in
  {| base := b; gst := g; total := (b + g)%Q |}.

(** [computeEnterprisePrice(pkg, billingType, country)] *)
Definition computeEnterprisePrice (pkg : string) (billingType country : option string)
  : priced :=
  match get_property ENTERPRISE_BASE_PRICES pkg with
  | Undefined => Thrown "Invalid enterprise package"
  | Inherited m => NonNumeric m
  | OwnNumber baseMonthly =>
      if Qeq_bool baseMonthly 0 then Thrown "Invalid enterprise package"
      else
        let bt := billingLower billingType in
        let b :=
          if String.eqb pkg "consultation" then
            match ownProperty ENTERPRISE_BASE_PRICES "consultation" with
            | Some c => c
            | None => baseMonthly
            end
          else if String.eqb bt "yearly" then yearlyBase baseMonthly
          else baseMonthly in
        Priced (withGst (isIndia country) b)
  end.

(** [getEnterprisePlanId(pkg, billingType)] *)
Definition getEnterprisePlanId (pkg : string) (billingType : string) : string :=
  if String.eqb pkg "consultation" then "ENT_CONSULTATION"
  else if String.eqb pkg "60" then "ENT_60"
  else if String.eqb pkg "90" then "ENT_90"
  else if String.eqb pkg "120" then "ENT_120"
  else "ENT_UNKNOWN".

(** How the pricing lines of the starter/pro route end: an error response, or
    the plan id, the billing type and the quote the route goes on with. *)
Inductive starterpro_pricing : Type :=
  | SPRejected (status : Z) (error : string)
  | SPPriced (planId : string) (bt : string) (q : Quote).

(** The pricing lines of [POST /api/create-starterpro-order], from the test
    of [plan] to [const total = base + gst]. *)
Definition starterProPricing (plan billingType country : option string)
  : starterpro_pricing :=
  if falsyString plan then SPRejected 400 "plan is required"
  else
    let planNormalized :=
      if String.eqb (orString plan "") "pro" then "pro" else "starter" in
    let basePlanId :=
      if String.eqb planNormalized "starter" then "SP_STARTER" else "SP_PRO" in
    (* basePlanId is one of the table's two own keys *)
    match ownProperty STARTER_PRO_PLAN_PRICES basePlanId with
    | None => SPRejected 400 "Invalid plan"
    | Some base0 =>
        if Qeq_bool base0 0 then SPRejected 400 "Invalid plan"
        else
          let bt0 := billingLower billingType in
          let bt := if String.eqb bt0 "subscription" then "monthly" else bt0 in
          let planId := basePlanId in
          let b := if String.eqb bt "yearly" then yearlyBase base0 else base0 in
          SPPriced planId bt (withGst (isIndia country) b)
    end.


(** ** Offers *)

(** [new Date(v)] for a stored truthy value [v]: a time in milliseconds, or
    an invalid date. *)
Inductive JsDate : Type :=
  | InvalidDate
  | DateMs (ms : Z).

(** [offer.validity]: a field is [None] when its value is falsy. *)
Record Validity : Type := mkValidity {
  start : option JsDate;
  finish : option JsDate   (* [end] in the source *)
}.

(** [offer.appliesTo]: a field is [None] when its value is not an array. *)
Record AppliesTo : Type := mkAppliesTo {
  plans : option (list string);
  billingTypes : option (list string);
  countries : option (list string)
}.

(** One record of offers.json, current or legacy shape.  A field is [None]
    when the record does not define it. *)
Record Offer : Type := mkOffer {
  code : option string;
  type : option string;
  amount : option Q;
  description : option string;
  active : option bool;
  enabled : option bool;
  appliesTo : option AppliesTo;
  usageLimit : option Q;
  used : option Q;
  validity : option Validity;
  (* legacy fields *)
  applicablePlans : option (list string);
  flatBillingTypes : option (list string);   (* [offer.billingTypes] *)
  flatCountries : option (list string);      (* [offer.countries] *)
  startAt : option JsDate;
  endAt : option JsDate;
  notes : option string
}.

(** [Array.isArray(x) ? x : []] *)
Definition arrayOrEmpty (x : option (list string)) : list string :=
  match x with
  | Some l => l
  | None => []
  end.

(** The body of the [arr.map] callback of [loadOffers]. *)
Definition upgradeOffer (o : Offer) : Offer :=
  let active1 :=
    match active o with
    | Some a => Some a
    | None => match enabled o with Some e => Some e | None => Some true end
    end in
  let validity1 :=
    match validity o with
    | Some v => Some v
    | None => Some {| start := startAt o; finish := endAt o |}
    end in
  let appliesTo1 :=
    match appliesTo o with
    | None =>
        Some {| plans := Some (arrayOrEmpty (applicablePlans o));
                billingTypes := Some (arrayOrEmpty (flatBillingTypes o));
                countries := Some (arrayOrEmpty (flatCountries o)) |}
    | Some a =>
        Some {| plans := Some (arrayOrEmpty (plans a));
                billingTypes := Some (arrayOrEmpty (billingTypes a));
                countries := Some (arrayOrEmpty (countries a)) |}
    end in
  let type1 := if falsyString (type o) then type o else option_map toUpperCase (type o) in
  let used1 := match used o with Some u => Some u | None => Some 0%Q end in
  let description1 :=
    if falsyString (description o) && negb (falsyString (notes o))
    then notes o else description o in
  {| code := code o; type := type1; amount := amount o;
     description := description1; active := active1; enabled := enabled o;
     appliesTo := appliesTo1; usageLimit := usageLimit o; used := used1;
     validity := validity1; applicablePlans := applicablePlans o;
     flatBillingTypes := flatBillingTypes o; flatCountries := flatCountries o;
     startAt := startAt o; endAt := endAt o; notes := notes o |}.

(** [loadOffers()], as a function of the array stored in offers.json (the
    empty array when the file is missing, empty or not an array). *)
Definition loadOffers (file : list Offer) : list Offer := map upgradeOffer file.

(** [{ valid: false }] or [{ valid: true, offer }] *)
Inductive validation : Type :=
  | Invalid
  | Valid (offer : Offer).

(** [normalizedCode] of the admin routes that write offers.json:
    [String(code).trim().toUpperCase()]. *)
Definition normalizedCode (code : string) : string := toUpperCase (trim code).

(** [(o.code || "").toUpperCase() === code] *)
Definition codeMatches (c : string) (o : Offer) : bool :=
  String.eqb (toUpperCase (orString (code o) "")) c.

(** [isActive] of [validateOfferForPlan] *)
Definition isActive (o : Offer) : bool :=
  match active o with
  | Some a => a
  | None => match enabled o with Some e => e | None => true end
  end.

(** [start] and [end] of [validateOfferForPlan] *)
Definition windowStart (o : Offer) : option JsDate :=
  match validity o with
  | Some v => start v
  | None => startAt o
  end.

Definition windowEnd (o : Offer) : option JsDate :=
  match validity o with
  | Some v => finish v
  | None => endAt o
  end.

(** [start && now < start]: a comparison with an invalid date is false. *)
Definition beforeStart (now : Z) (s : option JsDate) : bool :=
  match s with
  | Some (DateMs t) => now <? t
  | _ => false
  end.

(** [end && now > end] *)
Definition afterEnd (now : Z) (e : option JsDate) : bool :=
  match e with
  | Some (DateMs t) => t <? now
  | _ => false
  end.

(** [plans] of [validateOfferForPlan] *)
Definition offerPlans (o : Offer) : list string :=
  match appliesTo o with
  | Some a =>
      match plans a with
      | Some l => l
      | None => arrayOrEmpty (applicablePlans o)
      end
  | None => arrayOrEmpty (applicablePlans o)
  end.

(** The checks of [validateOfferForPlan] that follow [offers.find]. *)
Definition checkOffer (now : Z) (planId : string) (o : Offer) : validation :=
  if negb (isActive o) then Invalid
  else if beforeStart now (windowStart o) then Invalid
  else if afterEnd now (windowEnd o) then Invalid
  else if (0 <? Z.of_nat (length (offerPlans o))) && negb (includes (offerPlans o) planId)
  then Invalid
  else Valid o.

(** [validateOfferForPlan(planId, couponCode)], with the content of
    offers.json and the clock ([new Date()], in milliseconds) as arguments. *)
Definition validateOfferForPlan (file : list Offer) (now : Z)
    (planId : string) (couponCode : option string) : validation :=
  if falsyString couponCode then Invalid
  else
    let offers := loadOffers file in
    match offers with
    | [] => Invalid
    | _ =>
        let c := toUpperCase (trim (orString couponCode "")) in
        match find (codeMatches c) offers with
        | None => Invalid
        | Some offer => checkOffer now planId offer
        end
    end.

(** The text [applyOffer] builds, by its two templates. *)
Inductive offerText : Type :=
  | PercentOffVia (amount : option Q) (code : option string)
  | RupeesOffVia (amount : option Q) (code : option string).

Record Discount : Type := mkDiscount {
  discount : Q;
  final : Q;
  text : option offerText   (* [description] in the source *)
}.

(** [Number(offer.amount || 0)] *)
Definition amountOrZero (o : Offer) : Q :=
  match amount o with
  | Some a => a
  | None => 0%Q
  end.

(** [offer.type === t] *)
Definition typeIs (o : Offer) (t : string) : bool :=
  match type o with
  | Some x => String.eqb x t
  | None => false
  end.

(** [discount] of [applyOffer] before the two clamping tests. *)
Definition rawDiscount (totalAmount : Q) (o : Offer) : Q :=
  if typeIs o "PERCENT"
  then inject_Z (Math_round ((totalAmount * amountOrZero o) / 100))
  else if typeIs o "FIXED"
  then inject_Z (Math_round (amountOrZero o))
  else 0%Q.

(** [if (discount < 0) discount = 0; if (discount > totalAmount) discount = totalAmount;] *)
Definition clampDiscount (totalAmount d : Q) : Q :=
  let d1 := if Qltb d 0 then 0%Q else d in
  if Qltb totalAmount d1 then totalAmount else d1.

(** [applyOffer(totalAmount, offer)] *)
Definition applyOffer (totalAmount : Q) (offer : option Offer) : Discount :=
  match offer with
  | None => {| discount := 0%Q; final := totalAmount; text := None |}
  | Some o =>
      let d := clampDiscount totalAmount (rawDiscount totalAmount o) in
      let f := (totalAmount - d)%Q in
      let t :=
        if typeIs o "PERCENT"
        then PercentOffVia (amount o) (code o)
        else RupeesOffVia (amount o) (code o) in
      {| discount := d; final := f; text := Some t |}
  end.

(** The four tests of [checkOffer] as one boolean. *)
Definition passesGates (now : Z) (planId : string) (o : Offer) : bool :=
  isActive o
  && negb (beforeStart now (windowStart o))
  && negb (afterEnd now (windowEnd o))
  && (match offerPlans o with [] => true | _ => includes (offerPlans o) planId end).

(** Two stored records that agree on every field except the billing-type and
    country lists (of [appliesTo], and the legacy flat ones). *)
Definition sameButFilters (o1 o2 : Offer) : Prop :=
  code o1 = code o2 /\ type o1 = type o2 /\ amount o1 = amount o2
  /\ description o1 = description o2 /\ active o1 = active o2
  /\ enabled o1 = enabled o2 /\ usageLimit o1 = usageLimit o2
  /\ used o1 = used o2 /\ validity o1 = validity o2
  /\ applicablePlans o1 = applicablePlans o2
  /\ startAt o1 = startAt o2 /\ endAt o1 = endAt o2 /\ notes o1 = notes o2
  /\ match appliesTo o1, appliesTo o2 with
     | Some a1, Some a2 => plans a1 = plans a2
     | None, None => True
     | _, _ => False
     end.

(** Two resolution results that agree: both fail, or both succeed with
    records that agree up to the two lists. *)
Definition sameOutcome (v1 v2 : validation) : Prop :=
  match v1, v2 with
  | Invalid, Invalid => True
  | Valid o1, Valid o2 => sameButFilters o1 o2
  | _, _ => False
  end.

(** ** Public offer validation route *)

(** The responses of [POST /api/validate-offer].  [VONonNumeric m]: the
    pricing helper returned the inherited member [m] as [base], so the JSON
    body carries no numeric total. *)
Inductive validateOfferResponse : Type :=
  | VOError (status : Z) (error : string)
  | VONotApplied (planId : string) (q : Quote) (final : Q)
  | VOApplied (planId : string) (q : Quote) (offer : Offer) (d : Discount)
  | VONonNumeric (member : string).

(** The handler of [POST /api/validate-offer]; [basePrice] is the number
    [Number(basePrice)] when the body gives one. *)
Definition validateOffer (file : list Offer) (now : Z)
    (planId : option string) (basePrice : option Q) (couponCode : option string)
  : validateOfferResponse :=
  if falsyString planId then VOError 400 "planId is required"
  else
    let pid := orString planId "" in
    (* basePrice ? Number(basePrice) : undefined *)
    let customBasePrice :=
      match basePrice with
      | Some b => if Qeq_bool b 0 then None else Some b
      | None => None
      end in
    match computeOneTimePrice pid customBasePrice with
    | Thrown _ => VOError 500 "Internal server error"
    | NonNumeric m => VONonNumeric m
    | Priced q =>
        match validateOfferForPlan file now pid couponCode with
        | Invalid => VONotApplied pid q (total q)
        | Valid offer => VOApplied pid q offer (applyOffer (total q) (Some offer))
        end
    end.

(** ** Base64 ([buffer.toString("base64")]) *)

(** Six bits, most significant first. *)
Inductive sextet : Type :=
  | Sextet (b5 b4 b3 b2 b1 b0 : bool).

Definition base64Alphabet : string :=
  "ABCDEFGHIJKLMNOPQRSTUVWXYZabcdefghijklmnopqrstuvwxyz0123456789+/".

Definition sextetIndex (s : sextet) : nat :=
  let v (b : bool) (w : nat) : nat := if b then w else O in
  match s with
  | Sextet b5 b4 b3 b2 b1 b0 =>
      (v b5 32 + v b4 16 + v b3 8 + v b2 4 + v b1 2 + v b0 1)%nat
  end.

Definition base64Char (s : sextet) : ascii :=
  match String.get (sextetIndex s) base64Alphabet with
  | Some c => c
  | None => "="%char
  end.

(** The 6-bit groups of a buffer; the last group of a buffer whose length is
    not a multiple of three is filled with zero bits. *)
Fixpoint sextets (buf : list byte) : list sextet :=
  match buf with
  | [] => []
  | [x] =>
      let '(x0, (x1, (x2, (x3, (x4, (x5, (x6, x7))))))) := Byte.to_bits x in
      [ Sextet x7 x6 x5 x4 x3 x2; Sextet x1 x0 false false false false ]
  | [x; y] =>
      let '(x0, (x1, (x2, (x3, (x4, (x5, (x6, x7))))))) := Byte.to_bits x in
      let '(y0, (y1, (y2, (y3, (y4, (y5, (y6, y7))))))) := Byte.to_bits y in
      [ Sextet x7 x6 x5 x4 x3 x2; Sextet x1 x0 y7 y6 y5 y4;
        Sextet y3 y2 y1 y0 false false ]
  | x :: y :: z :: rest =>
      let '(x0, (x1, (x2, (x3, (x4, (x5, (x6, x7))))))) := Byte.to_bits x in
      let '(y0, (y1, (y2, (y3, (y4, (y5, (y6, y7))))))) := Byte.to_bits y in
      let '(z0, (z1, (z2, (z3, (z4, (z5, (z6, z7))))))) := Byte.to_bits z in
      Sextet x7 x6 x5 x4 x3 x2 :: Sextet x1 x0 y7 y6 y5 y4
        :: Sextet y3 y2 y1 y0 z7 z6 :: Sextet z5 z4 z3 z2 z1 z0
        :: sextets rest
  end.

Definition base64Padding (len : nat) : string :=
  match (len mod 3)%nat with
  | 1%nat => "=="
  | 2%nat => "="
  | _ => ""
  end.

Definition toBase64 (buf : list byte) : string :=
  string_of_list_ascii (map base64Char (sextets buf)) +:+ base64Padding (length buf).

(** ** Thank-you signature helpers (v1) *)

(** [s.replace(/c/g, d)] for single characters [c] and [d]. *)
Definition replaceChar (c d : ascii) (s : string) : string :=
  mapString (fun x => if Ascii.eqb x c then d else x) s.

(** [base64url(buffer)] *)
Definition base64url (buffer : list byte) : string :=
  dropWhileEnd (Ascii.eqb "="%char)
    (replaceChar "/"%char "_"%char
       (replaceChar "+"%char "-"%char (toBase64 buffer))).

(** The character [base64url] emits for a 6-bit group. *)
Definition urlChar (s : sextet) : ascii :=
  let c := base64Char s in
  let c1 := if Ascii.eqb c "+"%char then "-"%char else c in
  if Ascii.eqb c1 "/"%char then "_"%char else c1.

(** The URL-safe base64 alphabet: letters, digits, "-" and "_". *)
Definition urlSafeChar (c : ascii) : bool :=
  let n := N_of_ascii c in
  (((65 <=? n) && (n <=? 90)) || ((97 <=? n) && (n <=? 122))
   || ((48 <=? n) && (n <=? 57)) || (n =? 45) || (n =? 95))%N.

(** [s] does not contain the separator "|" of the canonical string. *)
Definition noBar (s : string) : bool :=
  stringAll (fun c => negb (Ascii.eqb c "|"%char)) s.

(** The template string that [signThankYouV1] signs. *)
Definition thankYouCanonical (order_id payment_id ts : string) : string :=
  "v1|order_id=" +:+ order_id +:+ "|payment_id=" +:+ payment_id +:+ "|ts=" +:+ ts.

(** [crypto.timingSafeEqual(aa, bb)] on buffers of one length. *)
Definition timingSafeEqual (aa bb : list byte) : bool :=
  forallb (fun xy : byte * byte => Byte.eqb (fst xy) (snd xy)) (combine aa bb).

(** [timingSafeEqualStr(a, b)] *)
Definition timingSafeEqualStr (a b : string) : bool :=
  let aa := list_byte_of_string a in
  let bb := list_byte_of_string b in
  if negb (Nat.eqb (length aa) (length bb)) then false
  else timingSafeEqual aa bb.

(** What a call of [signThankYouV1] produces. *)
Inductive signed : Type :=
  | SignThrown (message : string)
  | Signature (sig : string).

(** ** Thank-you contract store (v1) *)

Inductive ContractKind : Type :=
  | enterprise
  | starter_pro.

Record ContractPricing : Type := mkContractPricing {
  pricing_base : Q;
  pricing_gst : Q;
  pricing_discount : Q;
  pricing_final : Q;
  currency : string;
  is_india : bool
}.

(** The contract [/verify-payment] builds from the order notes. *)
Record Contract : Type := mkContract {
  version : string;
  kind : ContractKind;
  context_package_or_plan : string;
  billing_type : string;
  is_consultation : option string;
  pricing : ContractPricing;
  ids_order_id : string;
  ids_payment_id : string;
  coupon_code : option string;
  offer_label : option string
}.

Record StoreEntry : Type := mkStoreEntry {
  storedAt : Z;
  contract : Contract
}.

Definition THANKYOU_CONTRACT_TTL_MS : Z := 30 * 60 * 1000.

(** [makeThankYouKey({ order_id, payment_id })] *)
Definition makeThankYouKey (order_id payment_id : string) : string :=
  "v1|order_id=" +:+ order_id +:+ "|payment_id=" +:+ payment_id.

(** An entry [purgeThankYouContracts] keeps at time [now]. *)
Definition fresh (now : Z) (e : StoreEntry) : Prop :=
  storedAt e <> 0 /\ now - storedAt e <= THANKYOU_CONTRACT_TTL_MS.

#[global] Instance fresh_dec now e : Decision (fresh now e).
Proof. unfold fresh. apply _. Defined.

(** [purgeThankYouContracts()] at time [now = Date.now()] *)
Definition purgeThankYouContracts (now : Z) (store : gmap string StoreEntry)
  : gmap string StoreEntry :=
  filter (fun kv : string * StoreEntry => fresh now (snd kv)) store.

(** [storeThankYouContract({ order_id, payment_id, contract })] *)
Definition storeThankYouContract (now : Z) (order_id payment_id : string)
    (c : Contract) (store : gmap string StoreEntry) : gmap string StoreEntry :=
  let purged := purgeThankYouContracts now store in
  let key := makeThankYouKey order_id payment_id in
  <[ key := {| storedAt := now; contract := c |} ]> purged.

(** [getThankYouContract({ order_id, payment_id })]: the store after the purge
    and what was found. *)
Definition getThankYouContract (now : Z) (order_id payment_id : string)
    (store : gmap string StoreEntry) : gmap string StoreEntry * option Contract :=
  let purged := purgeThankYouContracts now store in
  let key := makeThankYouKey order_id payment_id in
  (purged, contract <$> purged !! key).

(** ** Thank-you contract endpoint (v1) *)

Record Query : Type := mkQuery {
  q_version : option string;
  q_order_id : option string;
  q_payment_id : option string;
  q_ts : option string;
  q_sig : option string
}.

Inductive ErrorCode : Type :=
  | MISCONFIGURED | MISSING_PARAMS | INVALID_TS | EXPIRED_TS
  | INVALID_SIGNATURE | NOT_FOUND | INTERNAL_ERROR.

Inductive ResponseBody : Type :=
  | ErrorJson (code : ErrorCode) (message : string)
  | ContractJson (c : Contract).

Record Response : Type := mkResponse {
  status : Z;
  body : ResponseBody
}.

Section Builtins.

(** [crypto.createHmac("sha256", key).update(message).digest()] *)
Variable hmacSha256 : string -> string -> list byte.

(** [Number(s)] when the result is finite; [None] when
    [Number.isFinite] rejects it. *)
Variable Number : string -> option Q.

(** [signThankYouV1({ order_id, payment_id, ts })]; [secret] is
    [THANKYOU_SIG_SECRET]. *)
Definition signThankYouV1 (secret : option string) (order_id payment_id ts : string)
  : signed :=
  if falsyString secret then SignThrown "THANKYOU_SIG_SECRET not configured"
  else
    let canonical := thankYouCanonical order_id payment_id ts in
    let mac := hmacSha256 (orString secret "") canonical in
    Signature (base64url mac).

(** The handler of [GET /api/thank-you-contract]: the response and the store
    it leaves.  One reading [now] of [Date.now()] serves the freshness test
    and the purge of the store. *)
Definition thankYouContract (secret : option string) (now : Z)
    (store : gmap string StoreEntry) (query : Query)
  : Response * gmap string StoreEntry :=
  if falsyString secret then
    ({| status := 500;
        body := ErrorJson MISCONFIGURED "THANKYOU_SIG_SECRET not configured." |}, store)
  else
    let ver := orString (q_version query) "v1" in
    let order_id := orString (q_order_id query) "" in
    let payment_id := orString (q_payment_id query) "" in
    let ts := orString (q_ts query) "" in
    let sig := orString (q_sig query) "" in
    if negb (String.eqb ver "v1") || String.eqb order_id "" || String.eqb payment_id ""
       || String.eqb ts "" || String.eqb sig ""
    then
      ({| status := 400;
          body := ErrorJson MISSING_PARAMS "Missing verification params." |}, store)
    else
      match Number ts with
      | None =>
          ({| status := 400; body := ErrorJson INVALID_TS "Invalid timestamp." |}, store)
      | Some tsNum =>
          let tsMs := if (13 <=? String.length ts)%nat then tsNum else (tsNum * 1000)%Q in
          let ageMs := Qabs (inject_Z now - tsMs) in
          if Qltb (inject_Z (15 * 60 * 1000)) ageMs then
            ({| status := 401; body := ErrorJson EXPIRED_TS "Link expired." |}, store)
          else
            match signThankYouV1 secret order_id payment_id ts with
            | SignThrown _ =>
                ({| status := 500; body := ErrorJson INTERNAL_ERROR "Server error." |},
                 store)
            | Signature expected =>
                if negb (timingSafeEqualStr expected sig) then
                  ({| status := 401;
                      body := ErrorJson INVALID_SIGNATURE "Verification failed." |}, store)
                else
                  let '(store1, found) := getThankYouContract now order_id payment_id store in
                  match found with
                  | None =>
                      ({| status := 404;
                          body := ErrorJson NOT_FOUND
                                    "Contract not found (try again shortly)." |}, store1)
                  | Some c => ({| status := 200; body := ContractJson c |}, store1)
                  end
            end
      end.

End Builtins.

(** ** Canonical plan list *)

(** One entry of [PLANS_CONFIG]. *)
Record Plan : Type := mkPlan {
  plan_id : string;
  plan_label : string;
  allowedBilling : list string;
  isConsultation : bool
}.

Definition PLANS_CONFIG : list Plan :=
  [ {| plan_id := "SP_STARTER"; plan_label := "Starter";
       allowedBilling := ["monthly"; "yearly"]; isConsultation := false |};
    {| plan_id := "SP_PRO"; plan_label := "Pro";
       allowedBilling := ["monthly"; "yearly"]; isConsultation := false |};
    {| plan_id := "ENT_60"; plan_label := "Enterprise 60";
       allowedBilling := ["monthly"; "yearly"]; isConsultation := false |};
    {| plan_id := "ENT_90"; plan_label := "Enterprise 90";
       allowedBilling := ["monthly"; "yearly"]; isConsultation := false |};
    {| plan_id := "ENT_120"; plan_label := "Enterprise 120";
       allowedBilling := ["monthly"; "yearly"]; isConsultation := false |};
    {| plan_id := "ENT_CONSULTATION"; plan_label := "Consultation (One-time)";
       allowedBilling := ["one_time"]; isConsultation := true |} ].

(** The elements a [Set] holds after the values of [xs] were added in order
    to a set that held [seen]: first occurrences, in order. *)
Fixpoint addedToSet (seen xs : list string) : list string :=
  match xs with
  | [] => []
  | x :: rest =>
      if includes seen x then addedToSet seen rest
      else x :: addedToSet (x :: seen) rest
  end.

(** [Array.from(new Set(xs))] *)
Definition arrayFromSet (xs : list string) : list string := addedToSet [] xs.

(** [PLANS_CONFIG.find((p) => p.id === id)] *)
Definition findPlan (id : string) : option Plan :=
  find (fun p => String.eqb (plan_id p) id) PLANS_CONFIG.

(** [xs.map(f).filter(Boolean)] for an [f] that returns an object or
    [undefined]. *)
Definition mapDefined {A B : Type} (f : A -> option B) (xs : list A) : list B :=
  flat_map (fun x => match f x with Some y => [y] | None => [] end) xs.

(** [deriveBillingTypesFromPlans(planIds)] *)
Definition deriveBillingTypesFromPlans (planIds : list string) : list string :=
  let uniqueIds := arrayFromSet planIds in
  let selectedPlans := mapDefined findPlan uniqueIds in
  match selectedPlans with
  | [] => []
  | _ =>
      let hasConsultation := existsb isConsultation selectedPlans in
      if hasConsultation then ["one_time"]
      else arrayFromSet (flat_map allowedBilling selectedPlans)
  end.

(** ** Offers admin API *)

(** [requireAdminSecret]: the request goes on to the handler, or is answered
    with 401. *)
Inductive authOutcome : Type :=
  | AuthNext
  | AuthRejected (status : Z) (error : string).

(** [requireAdminSecret(req, res, next)]; [configured] is
    [ADMIN_OFFERS_SECRET] and [header] the [x-admin-secret] header. *)
Definition requireAdminSecret (configured header : option string) : authOutcome :=
  let headerSecret := orString header "" in
  if String.eqb headerSecret "" then
    AuthRejected 401 "Unauthorized: missing admin secret"
  else
    match configured with
    | Some s =>
        if String.eqb headerSecret s then AuthNext
        else AuthRejected 401 "Unauthorized: invalid admin secret"
    | None => AuthRejected 401 "Unauthorized: invalid admin secret"
    end.

(** What an admin route answers: an error, or [{ success: true }] with the
    offer it reports, if any. *)
Inductive adminResponse : Type :=
  | AdminError (status : Z) (error : string)
  | AdminOk (offer : option Offer).

(** [xs.map((p) => String(p || "").trim()).filter(Boolean)]; an element is
    [None] when it is falsy. *)
Definition cleanStrings (xs : list (option string)) : list string :=
  List.filter (fun s => negb (String.eqb s ""))
    (map (fun p => trim (orString p "")) xs).

(** The body of [POST /api/admin/offers].  [body_amount] is [None] when
    [amount] is falsy and [Some (Number(amount))] otherwise, the number being
    [None] when it is NaN; [body_plans] and [body_countries] are the arrays of
    [appliesTo], when [appliesTo] is given and they are arrays; [body_active]
    is the boolean [active], when it is one. *)
Record OfferBody : Type := mkOfferBody {
  body_code : option string;
  body_type : option string;
  body_amount : option (option Q);
  body_description : option string;
  body_active : option bool;
  body_plans : option (list (option string));
  body_countries : option (list (option string));
  body_usageLimit : option Q;
  body_validity : option Validity
}.

(** [o.code === c] *)
Definition codeIs (c : string) (o : Offer) : bool :=
  match code o with
  | Some s => String.eqb s c
  | None => false
  end.

(** [xs.findIndex(f)], [None] standing for -1. *)
Fixpoint findIndex {A : Type} (f : A -> bool) (xs : list A) : option nat :=
  match xs with
  | [] => None
  | x :: rest => if f x then Some O else option_map S (findIndex f rest)
  end.

(** [offerPayload] of the POST route. *)
Definition offerPayload (normalizedCode normalizedType : string) (numericAmount : Q)
    (body : OfferBody) (plans billing countries : list string) : Offer :=
  {| code := Some normalizedCode;
     type := Some normalizedType;
     amount := Some numericAmount;
     description := Some (orString (body_description body) "");
     active := Some (match body_active body with Some false => false | _ => true end);
     enabled := None;
     appliesTo := Some {| plans := Some plans; billingTypes := Some billing;
                          countries := Some countries |};
     usageLimit := body_usageLimit body;
     used := Some 0%Q;
     validity :=
       Some {| start := match body_validity body with Some v => start v | None => None end;
               finish := match body_validity body with Some v => finish v | None => None end |};
     applicablePlans := None; flatBillingTypes := None; flatCountries := None;
     startAt := None; endAt := None; notes := None |}.

(** [{ ...old, ...payload }]: the payload defines every current field, the
    stored record keeps its legacy ones. *)
Definition mergeOffer (old payload : Offer) : Offer :=
  {| code := code payload; type := type payload; amount := amount payload;
     description := description payload; active := active payload;
     enabled := enabled old; appliesTo := appliesTo payload;
     usageLimit := usageLimit payload; used := used payload;
     validity := validity payload; applicablePlans := applicablePlans old;
     flatBillingTypes := flatBillingTypes old; flatCountries := flatCountries old;
     startAt := startAt old; endAt := endAt old; notes := notes old |}.

(** [if (idx >= 0) offers[idx] = { ...offers[idx], ...payload }; else offers.push(payload);] *)
Definition upsertOffer (c : string) (payload : Offer) (offers : list Offer) : list Offer :=
  match findIndex (codeIs c) offers with
  | Some idx =>
      match nth_error offers idx with
      | Some old => firstn idx offers ++ mergeOffer old payload :: skipn (S idx) offers
      | None => offers
      end
  | None => offers ++ [payload]
  end.

(** The handler of [POST /api/admin/offers]: the response and the content of
    offers.json afterwards. *)
Definition postAdminOffer (file : list Offer) (body : OfferBody)
  : adminResponse * list Offer :=
  if falsyString (body_code body) || falsyString (body_type body)
     || match body_amount body with None => true | Some _ => false end
  then (AdminError 400 "code, type and amount are required", file)
  else
    let nCode := toUpperCase (trim (orString (body_code body) "")) in
    let nType := toUpperCase (trim (orString (body_type body) "")) in
    let numericAmount := match body_amount body with Some n => n | None => None end in
    match numericAmount with
    | None => (AdminError 400 "amount must be > 0", file)
    | Some a =>
        if Qeq_bool a 0 || Qle_bool a 0 then (AdminError 400 "amount must be > 0", file)
        else if negb (includes ["PERCENT"; "FIXED"] nType)
        then (AdminError 400 "type must be PERCENT or FIXED", file)
        else
          let plans := match body_plans body with
                       | Some ps => cleanStrings ps
                       | None => []
                       end in
          let billing := deriveBillingTypesFromPlans plans in
          let countries := match body_countries body with
                           | Some cs => cleanStrings cs
                           | None => []
                           end in
          match plans with
          | [] => (AdminError 400 "At least one plan (appliesTo.plans) is required", file)
          | _ =>
              let offers := loadOffers file in
              let payload := offerPayload nCode nType a body plans billing countries in
              (AdminOk (Some payload), upsertOffer nCode payload offers)
          end
    end.

(** [offers[idx].active = on; offers[idx].enabled = on;] *)
Definition setActiveFlags (on : bool) (o : Offer) : Offer :=
  {| code := code o; type := type o; amount := amount o;
     description := description o; active := Some on; enabled := Some on;
     appliesTo := appliesTo o; usageLimit := usageLimit o; used := used o;
     validity := validity o; applicablePlans := applicablePlans o;
     flatBillingTypes := flatBillingTypes o; flatCountries := flatCountries o;
     startAt := startAt o; endAt := endAt o; notes := notes o |}.

(** The handlers of [PATCH /api/admin/offers/:code/enable] ([on = true]) and
    [.../disable] ([on = false]). *)
Definition patchOfferActive (on : bool) (file : list Offer) (codeUrl : option string)
  : adminResponse * list Offer :=
  let codeParam := toUpperCase (orString codeUrl "") in
  if String.eqb codeParam "" then (AdminError 400 "Offer code is required in URL", file)
  else
    let offers := loadOffers file in
    match findIndex (codeIs codeParam) offers with
    | None => (AdminError 404 "Offer not found", file)
    | Some idx =>
        match nth_error offers idx with
        | None => (AdminError 404 "Offer not found", file)
        | Some o =>
            let o1 := setActiveFlags on o in
            (AdminOk (Some o1), firstn idx offers ++ o1 :: skipn (S idx) offers)
        end
    end.

(** The handler of [DELETE /api/admin/offers/:code]. *)
Definition deleteAdminOffer (file : list Offer) (codeUrl : option string)
  : adminResponse * list Offer :=
  let codeParam := toUpperCase (orString codeUrl "") in
  if String.eqb codeParam "" then (AdminError 400 "Offer code is required in URL", file)
  else
    let offers := loadOffers file in
    let beforeCount := length offers in
    let filtered := List.filter (fun o => negb (codeIs codeParam o)) offers in
    if Nat.eqb (length filtered) beforeCount then (AdminError 404 "Offer not found", file)
    else (AdminOk None, filtered).

(** ** Legacy PATCH route of the offers admin API *)

(** [patch.appliesTo]: a list is [None] when the property is not an array. *)
Record AppliesToPatch : Type := mkAppliesToPatch {
  patch_plans : option (list (option string));
  patch_countries : option (list (option string))
}.

(** [patch.validity]: a field is [None] when it is [undefined], and holds the
    given value otherwise ([None] for a falsy one). *)
Record ValidityPatch : Type := mkValidityPatch {
  patch_start : option (option JsDate);
  patch_end : option (option JsDate)
}.

(** The body of [PATCH /api/admin/offers/:code].  [patch_type] is the type
    when it is truthy; [patch_amount] is [Number(patch.amount)] when the
    amount is defined ([None] inside for NaN); [patch_active] is
    [!!patch.active] when it is defined; [patch_description] the description
    when it is defined; [patch_usageLimit] is [Some None] for [null]. *)
Record OfferPatch : Type := mkOfferPatch {
  patch_type : option string;
  patch_amount : option (option Q);
  patch_active : option bool;
  patch_description : option (option string);
  patch_appliesTo : option AppliesToPatch;
  patch_usageLimit : option (option Q);
  patch_validity : option ValidityPatch
}.

(** The two assignments under [if (patch.appliesTo)]. *)
Definition patchAppliesTo (p : AppliesToPatch) (a : AppliesTo) : AppliesTo :=
  let a1 :=
    match patch_plans p with
    | Some ps =>
        let plans1 := cleanStrings ps in
        {| plans := Some plans1;
           billingTypes := Some (deriveBillingTypesFromPlans plans1);
           countries := countries a |}
    | None => a
    end in
  match patch_countries p with
  | Some cs =>
      {| plans := plans a1; billingTypes := billingTypes a1;
         countries := Some (cleanStrings cs) |}
  | None => a1
  end.

(** The assignments the legacy PATCH route makes to [current = offers[idx]];
    [None] when one of them throws a TypeError (a write to
    [current.appliesTo.plans] or a read of [current.validity.start] on a
    record without that object). *)
Definition applyPatch (patch : OfferPatch) (current : Offer) : option Offer :=
  let type1 :=
    match patch_type patch with
    | Some t =>
        if falsyString (Some t) then type current
        else
          let t1 := toUpperCase t in
          if includes ["PERCENT"; "FIXED"] t1 then Some t1 else type current
    | None => type current
    end in
  let amount1 :=
    match patch_amount patch with
    | Some (Some amt) => if Qltb 0 amt then Some amt else amount current
    | _ => amount current
    end in
  let active1 :=
    match patch_active patch with Some b => Some b | None => active current end in
  let enabled1 :=
    match patch_active patch with Some b => Some b | None => enabled current end in
  let description1 :=
    match patch_description patch with
    | Some d => Some (orString d "")
    | None => description current
    end in
  let appliesTo1 : option (option AppliesTo) :=
    match patch_appliesTo patch with
    | Some p =>
        match patch_plans p, patch_countries p with
        | None, None => Some (appliesTo current)
        | _, _ =>
            match appliesTo current with
            | Some a => Some (Some (patchAppliesTo p a))
            | None => None
            end
        end
    | None => Some (appliesTo current)
    end in
  let usageLimit1 :=
    match patch_usageLimit patch with
    | Some l => l
    | None => usageLimit current
    end in
  let validity1 : option (option Validity) :=
    match patch_validity patch with
    | Some v =>
        match patch_start v, patch_end v with
        | Some s, Some e => Some (Some {| start := s; finish := e |})
        | _, _ =>
            match validity current with
            | Some cv =>
                Some (Some {| start := match patch_start v with
                                       | Some s => s
                                       | None => start cv
                                       end;
                              finish := match patch_end v with
                                        | Some e => e
                                        | None => finish cv
                                        end |})
            | None => None
            end
        end
    | None => Some (validity current)
    end in
  match appliesTo1, validity1 with
  | Some a, Some v =>
      Some {| code := code current; type := type1; amount := amount1;
              description := description1; active := active1; enabled := enabled1;
              appliesTo := a; usageLimit := usageLimit1; used := used current;
              validity := v; applicablePlans := applicablePlans current;
              flatBillingTypes := flatBillingTypes current;
              flatCountries := flatCountries current;
              startAt := startAt current; endAt := endAt current;
              notes := notes current |}
  | _, _ => None
  end.

(** The handler of [PATCH /api/admin/offers/:code]. *)
Definition patchAdminOffer (file : list Offer) (codeUrl : option string)
    (patch : OfferPatch) : adminResponse * list Offer :=
  let codeParam := toUpperCase (orString codeUrl "") in
  if String.eqb codeParam "" then (AdminError 400 "Offer code is required in URL", file)
  else
    let offers := loadOffers file in
    match findIndex (codeIs codeParam) offers with
    | None => (AdminError 404 "Offer not found", file)
    | Some idx =>
        match nth_error offers idx with
        | None => (AdminError 404 "Offer not found", file)
        | Some current =>
            match applyPatch patch current with
            | None => (AdminError 500 "Failed to update offer", file)
            | Some o1 =>
                (AdminOk (Some o1), firstn idx offers ++ o1 :: skipn (S idx) offers)
            end
        end
    end.

(** ** Files written through the admin API *)



(** The codes of the records that have one, in file order. *)
Definition storedCodes (file : list Offer) : list string :=
  mapDefined code file.

(** A stored code that upper-casing leaves alone (a record without a code
    counts as one with the empty code, as in [o.code || ""]). *)
Definition upperCode (o : Offer) : Prop :=
  toUpperCase (orString (code o) "") = orString (code o) "".


(** [o] with other usage fields. *)
Definition setUsage (u : option Q * option Q) (o : Offer) : Offer :=
  {| code := code o; type := type o; amount := amount o;
     description := description o; active := active o; enabled := enabled o;
     appliesTo := appliesTo o; usageLimit := fst u; used := snd u;
     validity := validity o; applicablePlans := applicablePlans o;
     flatBillingTypes := flatBillingTypes o; flatCountries := flatCountries o;
     startAt := startAt o; endAt := endAt o; notes := notes o |}.

(** A rational that is an integer. *)
Definition integral (x : Q) : Prop := (inject_Z (Qfloor x) == x)%Q.

(** ** Order routes *)

(** What an order route has computed when it calls [razorpay.orders.create]:
    the fields of its response that do not come from the gateway. *)
Record OrderDraft : Type := mkOrderDraft {
  order_planId : string;
  order_billingType : string;
  order_pricing : Quote;
  order_discount : Q;
  order_finalAmount : Q;
  order_amountInPaise : Z;
  order_offer : option Offer
}.

(** How an order route ends before the gateway is called.  [OrderNonNumeric]:
    the price helper returned no number, so the amount sent on is NaN. *)
Inductive orderOutcome : Type :=
  | OrderRejected (status : Z) (error : string)
  | OrderNonNumeric (member : string)
  | OrderReady (draft : OrderDraft).

(** The lines both order routes share, from [validateOfferForPlan(planId, coupon)]
    to [amountInPaise]. *)
Definition draftOrder (file : list Offer) (now : Z) (planId bt : string) (q : Quote)
    (coupon : option string) : OrderDraft :=
  match validateOfferForPlan file now planId coupon with
  | Valid offer =>
      let calc := applyOffer (total q) (Some offer) in
      {| order_planId := planId; order_billingType := bt; order_pricing := q;
         order_discount := discount calc; order_finalAmount := final calc;
         order_amountInPaise := Math_round (final calc * 100);
         order_offer := Some offer |}
  | Invalid =>
      {| order_planId := planId; order_billingType := bt; order_pricing := q;
         order_discount := 0%Q; order_finalAmount := total q;
         order_amountInPaise := Math_round (total q * 100);
         order_offer := None |}
  end.

(** The body of [POST /api/create-enterprise-order], as far as the handler
    reads it before the gateway call; [ent_isConsultation] is
    [Boolean(isConsultation)]. *)
Record EnterpriseBody : Type := mkEnterpriseBody {
  ent_fullName : option string;
  ent_email : option string;
  ent_package : option string;
  ent_company : option string;
  ent_gstStatus : option string;
  ent_country : option string;
  ent_billingType : option string;
  ent_isConsultation : bool;
  ent_coupon : option string
}.

(** The handler of [POST /api/create-enterprise-order] up to the gateway call. *)
Definition createEnterpriseOrder (file : list Offer) (now : Z) (body : EnterpriseBody)
  : orderOutcome :=
  if falsyString (ent_fullName body) || falsyString (ent_email body)
     || falsyString (ent_package body)
  then OrderRejected 400 "fullName, email and package are required"
  else if match ent_gstStatus body with Some s => String.eqb s "yes" | None => false end
          && falsyString (ent_company body)
  then OrderRejected 400 "Company / Brand name is required when registered with GST."
  else
    let pkgValue := orString (ent_package body) "" in
    let bt0 := billingLower (ent_billingType body) in
    let bt1 := if String.eqb bt0 "subscription" then "monthly" else bt0 in
    let consultation := String.eqb pkgValue "consultation" || ent_isConsultation body in
    let billingTypeValue := if consultation then "one_time" else bt1 in
    match computeEnterprisePrice pkgValue (Some billingTypeValue) (ent_country body) with
    | Thrown _ => OrderRejected 500 "Server error creating enterprise order."
    | NonNumeric m => OrderNonNumeric m
    | Priced q =>
        let planId := getEnterprisePlanId pkgValue billingTypeValue in
        OrderReady (draftOrder file now planId billingTypeValue q (ent_coupon body))
    end.


(** ** Sample data

    Concrete records and stand-ins for the built-ins, used to run the
    definitions above on explicit inputs. *)

(** A record of the legacy shape: [enabled], [startAt] / [endAt] and
    [applicablePlans] in place of [active], [validity] and [appliesTo]. *)
Definition legacyOffer (c t : string) (a : Q) (on : bool) (ps : list string)
    (s e : option JsDate) : Offer :=
  {| code := Some c; type := Some t; amount := Some a; description := None;
     active := None; enabled := Some on; appliesTo := None; usageLimit := None;
     used := None; validity := None; applicablePlans := Some ps;
     flatBillingTypes := None; flatCountries := None; startAt := s;
     endAt := e; notes := Some "festive offer" |}.

(** A record of the current shape, the one [POST /api/admin/offers] writes. *)
Definition currentOffer (c t : string) (a : Q) (on : bool) (ps : list string) : Offer :=
  {| code := Some c; type := Some t; amount := Some a; description := Some "";
     active := Some on; enabled := None;
     appliesTo := Some {| plans := Some ps; billingTypes := Some ["monthly"; "yearly"];
                          countries := Some [] |};
     usageLimit := None; used := Some 0%Q;
     validity := Some {| start := None; finish := None |};
     applicablePlans := None; flatBillingTypes := None; flatCountries := None;
     startAt := None; endAt := None; notes := None |}.

Definition SAVE10 : Offer := currentOffer "SAVE10" "FIXED" 1000%Q true ["ENT_90"].

Definition sampleContract : Contract :=
  {| version := "v1"; kind := enterprise; context_package_or_plan := "90";
     billing_type := "yearly"; is_consultation := Some "no";
     pricing := {| pricing_base := 480000%Q; pricing_gst := 86400%Q;
                   pricing_discount := 1000%Q; pricing_final := 565400%Q;
                   currency := "INR"; is_india := true |};
     ids_order_id := "order_N1"; ids_payment_id := "pay_N1";
     coupon_code := Some "SAVE10"; offer_label := None |}.

(** A body for [POST /api/admin/offers]: the code and type as typed, a
    blank entry in the plan list. *)
Definition sampleOfferBody : OfferBody :=
  {| body_code := Some " save10 "; body_type := Some "fixed";
     body_amount := Some (Some 1000%Q); body_description := None;
     body_active := None; body_plans := Some [Some "ENT_90"; Some " "; None];
     body_countries := None; body_usageLimit := None; body_validity := None |}.

(** A second stored offer, for every plan. *)
Definition WELCOME5 : Offer := currentOffer "WELCOME5" "PERCENT" 5%Q true [].

(** A legacy PATCH body that replaces the plan list by an empty one. *)
Definition clearPlansPatch : OfferPatch :=
  {| patch_type := None; patch_amount := None; patch_active := None;
     patch_description := None;
     patch_appliesTo := Some {| patch_plans := Some []; patch_countries := None |};
     patch_usageLimit := None; patch_validity := None |}.

(** A body for [POST /api/create-enterprise-order]. *)
Definition sampleEnterpriseBody (pkg billingType : string) (flag : bool) : EnterpriseBody :=
  {| ent_fullName := Some "A. Kumar"; ent_email := Some "a@example.com";
     ent_package := Some pkg; ent_company := None; ent_gstStatus := Some "no";
     ent_country := Some "India"; ent_billingType := Some billingType;
     ent_isConsultation := flag; ent_coupon := Some "save10" |}.

(** [Number] on a string of decimal digits, the form of
    [Date.now().toString()]; any other string counts as not finite here. *)
Definition digitValue (c : ascii) : option Z :=
  let n := N_of_ascii c in
  if ((48 <=? n) && (n <=? 57))%N then Some (Z.of_N (n - 48)) else None.

Fixpoint decimalDigits (acc : Z) (s : string) : option Z :=
  match s with
  | EmptyString => Some acc
  | String c s' =>
      match digitValue c with
      | Some d => decimalDigits (10 * acc + d) s'
      | None => None
      end
  end.

Definition decimalNumber (s : string) : option Q :=
  option_map inject_Z (decimalDigits 0 s).

(** A keyed digest standing in for HMAC-SHA-256 when a signature has to be
    computed on a concrete input. *)
Definition keyedDigest (key message : string) : list byte :=
  list_byte_of_string (key +:+ "/" +:+ message).

(** ** Binary64 arithmetic

    The numbers of the running program are IEEE 754 doubles.  These
    definitions evaluate the products of the pricing helpers in binary64
    (53 bits of precision, round to nearest even), to be compared with the
    exact products above. *)

Definition b64_of_Z (n : Z) : spec_float := binary_normalize 53 1024 n 0 false.
Definition b64_mul : spec_float -> spec_float -> spec_float := SFmul 53 1024.
Definition b64_div : spec_float -> spec_float -> spec_float := SFdiv 53 1024.
Definition b64_add : spec_float -> spec_float -> spec_float := SFadd 53 1024.

(** The doubles the literals [0.18] and [0.8] denote. *)
Definition GST_RATE64 : spec_float := b64_div (b64_of_Z 18) (b64_of_Z 100).
Definition YEARLY_FACTOR64 : spec_float := b64_div (b64_of_Z 8) (b64_of_Z 10).

(** The rational a finite double stands for, in lowest terms. *)
Definition b64_value (x : spec_float) : option Q :=
  match x with
  | S754_zero _ => Some 0%Q
  | S754_finite s m e =>
      let n := if s then Z.neg m else Z.pos m in
      Some (Qred (match e with
                  | Z.neg k => Qmake n (2 ^ k)%positive
                  | _ => inject_Z (n * 2 ^ e)
                  end))
  | _ => None
  end.

(** [Math.round] of a double. *)
Definition Math_round64 (x : spec_float) : option Z :=
  option_map Math_round (b64_value x).

(** Every price of the three tables. *)
Definition tablePrices : list Q :=
  map snd (ONE_TIME_PLAN_PRICES ++ STARTER_PRO_PLAN_PRICES ++ ENTERPRISE_BASE_PRICES).

(** For a whole price [p]: the tax on [p], the yearly base of [p] and the tax
    on that yearly base, computed in binary64, are the integers the exact
    computation gives, and the total is their exact sum. *)
Definition binary64Agrees (p : Q) : Prop :=
  let n := Qfloor p in
  let y := Math_round (p * 12 * YEARLY_FACTOR) in
  p = inject_Z n
  /\ Math_round64 (b64_mul (b64_of_Z n) GST_RATE64) = Some (Math_round (p * GST_RATE))
  /\ Math_round64 (b64_mul (b64_mul (b64_of_Z n) (b64_of_Z 12)) YEARLY_FACTOR64) = Some y
  /\ Math_round64 (b64_mul (b64_of_Z y) GST_RATE64)
     = Some (Math_round (inject_Z y * GST_RATE))
  /\ b64_value (b64_add (b64_of_Z n) (b64_of_Z (Math_round (p * GST_RATE))))
     = Some (inject_Z (n + Math_round (p * GST_RATE)))
  /\ b64_value (b64_add (b64_of_Z y) (b64_of_Z (Math_round (inject_Z y * GST_RATE))))
     = Some (inject_Z (y + Math_round (inject_Z y * GST_RATE))).

(** ** Proof tactics *)

(** Case analysis on the six bits of a 6-bit group. *)
Ltac each_sextet s :=
  destruct s as [[] [] [] [] [] []].

(** Case analysis on the eight bits of a character. *)
Ltac each_char c :=
  destruct c as [[] [] [] [] [] [] [] []].

(** Names the eight bits of a byte. *)
Ltac bits_of x :=
  let E := fresh "E" x in
  destruct (Byte.to_bits x) as [? [? [? [? [? [? [? ?]]]]]]] eqn:E.

(** Two bytes with the same bits are the same byte. *)
Lemma to_bits_inj (x y : byte) : Byte.to_bits x = Byte.to_bits y -> x = y.
Proof.
  intros H. rewrite <- (Byte.of_bits_to_bits x), <- (Byte.of_bits_to_bits y), H.
  reflexivity.
Qed.

Ltac same_byte x y :=
  assert (x = y) by (apply to_bits_inj; congruence); subst y.


(** * Properties *)

(** ** Numbers *)

Lemma Qltb_lt (x y : Q) : Qltb x y = true <-> (x < y)%Q.
Proof.
  unfold Qltb. rewrite negb_true_iff. split.
  - intros H. apply Qnot_le_lt. intros Hle.
    apply Qle_bool_iff in Hle. congruence.
  - intros H. destruct (Qle_bool y x) eqn:E; [ | reflexivity ].
    apply Qle_bool_iff in E. exfalso. exact (Qlt_not_le _ _ H E).
Qed.

Lemma Qltb_ge (x y : Q) : Qltb x y = false <-> (y <= x)%Q.
Proof.
  unfold Qltb. rewrite negb_false_iff. apply Qle_bool_iff.
Qed.

Lemma Math_round_Proper (x y : Q) : (x == y)%Q -> Math_round x = Math_round y.
Proof.
  intros Hxy. unfold Math_round. apply Qfloor_comp. rewrite Hxy. reflexivity.
Qed.

Lemma Math_round_nonneg (x : Q) : (0 <= x)%Q -> 0 <= Math_round x.
Proof.
  intros Hx. unfold Math_round.
  change 0 with (Qfloor 0%Q). apply Qfloor_resp_le.
  apply Qle_trans with x; [ exact Hx | ].
  rewrite <- (Qplus_0_r x) at 1. apply Qplus_le_r. discriminate.
Qed.

(** [Math.round] is within one half of its argument, ties going up. *)
Lemma Math_round_spec (x : Q) :
  (inject_Z (Math_round x) <= x + (1 # 2))%Q /\ (x - (1 # 2) < inject_Z (Math_round x))%Q.
Proof.
  unfold Math_round. split.
  - apply Qfloor_le.
  - pose proof (Qlt_floor (x + (1 # 2))) as H.
    rewrite inject_Z_plus in H.
    apply Qplus_lt_l with (z := 1%Q).
    eapply Qle_lt_trans; [ | exact H ].
    apply Qle_lteq. right. ring.
Qed.

(** ** applyOffer *)

Lemma clampDiscount_bounds (totalAmount d : Q) :
  (0 <= totalAmount)%Q ->
  (0 <= clampDiscount totalAmount d)%Q /\ (clampDiscount totalAmount d <= totalAmount)%Q.
Proof.
  intros Ht. unfold clampDiscount.
  destruct (Qltb d 0) eqn:Hneg.
  - destruct (Qltb totalAmount 0) eqn:Hbig.
    + apply Qltb_lt in Hbig. exfalso. exact (Qlt_not_le _ _ Hbig Ht).
    + split; [ apply Qle_refl | exact Ht ].
  - apply Qltb_ge in Hneg.
    destruct (Qltb totalAmount d) eqn:Hbig.
    + split; [ exact Ht | apply Qle_refl ].
    + apply Qltb_ge in Hbig. split; assumption.
Qed.

(** A discount already inside [[0, total]] is left as it is. *)
Lemma clampDiscount_inside (totalAmount d : Q) :
  (0 <= d)%Q -> (d <= totalAmount)%Q -> clampDiscount totalAmount d = d.
Proof.
  intros H0 H1. unfold clampDiscount.
  apply Qltb_ge in H0. rewrite H0.
  apply Qltb_ge in H1. rewrite H1. reflexivity.
Qed.






(** A FIXED amount above the total and a PERCENT amount above 100 are both cut
    down to the total; a negative amount is raised to zero. *)
Example applyOffer_clamps :
  applyOffer 500%Q (Some (currentOffer "BIG" "FIXED" 1000%Q true []))
  = {| discount := 500%Q; final := 0%Q;
       text := Some (RupeesOffVia (Some 1000%Q) (Some "BIG")) |}
  /\ discount (applyOffer 500%Q (Some (currentOffer "P" "PERCENT" 150%Q true []))) = 500%Q
  /\ discount (applyOffer 500%Q (Some (currentOffer "N" "FIXED" (-3)%Q true []))) = 0%Q
  /\ discount (applyOffer 47200%Q (Some (currentOffer "TEN" "PERCENT" 10%Q true []))) = 4720%Q.
Proof. repeat split; vm_compute; reflexivity. Qed.

(** ** Pricing *)


Lemma yearlyBase_nonneg (m : Q) : (0 <= m)%Q -> (0 <= yearlyBase m)%Q.
Proof.
  intros Hm. unfold yearlyBase.
  change 0%Q with (inject_Z 0). rewrite <- Zle_Qle.
  apply Math_round_nonneg.
  apply Qmult_le_0_compat; [ | discriminate ].
  apply Qmult_le_0_compat; [ exact Hm | discriminate ].
Qed.







(** The table bases under each cadence, and the yearly base of each tier. *)
Example yearly_bases :
  yearlyBase 40000 = 384000%Q /\ yearlyBase 50000 = 480000%Q
  /\ yearlyBase 55000 = 528000%Q /\ yearlyBase 15000 = 144000%Q
  /\ yearlyBase 30000 = 288000%Q
  /\ computeEnterprisePrice "60" (Some "one_time") None
     = Priced {| base := 40000%Q; gst := 0%Q; total := 40000%Q |}
  /\ starterProPricing (Some "starter") (Some "YEARLY") (Some "india")
     = SPPriced "SP_STARTER" "yearly"
         {| base := 144000%Q; gst := 25920%Q; total := 169920%Q |}.
Proof. repeat split; vm_compute; reflexivity. Qed.




(** Consultation is the one-time fee under every cadence; a foreign or
    missing country is untaxed. *)
Example enterprise_quotes :
  computeEnterprisePrice "consultation" (Some "yearly") (Some "  iNdIa ")
  = Priced {| base := 5000%Q; gst := 900%Q; total := 5900%Q |}
  /\ computeEnterprisePrice "120" (Some "monthly") None
     = Priced {| base := 55000%Q; gst := 0%Q; total := 55000%Q |}
  /\ computeEnterprisePrice "45" (Some "monthly") (Some "India")
     = Thrown "Invalid enterprise package".
Proof. repeat split; vm_compute; reflexivity. Qed.

(** ** One-time pricing *)


Lemma oneTimeBase_noOverride (planId : string) (customBasePrice : option Q) :
  noOverride customBasePrice ->
  oneTimeBase planId customBasePrice
  = nullish (get_property ONE_TIME_PLAN_PRICES planId) 0%Q.
Proof.
  intros Hno. unfold oneTimeBase. destruct customBasePrice as [c|]; [ | reflexivity ].
  cbn in Hno. apply Qltb_ge in Hno. rewrite Hno. reflexivity.
Qed.



(** Scenario A of the specification, and an override on an unknown plan. *)
Example one_time_quotes :
  computeOneTimePrice "PLAN_60" None
  = Priced {| base := 40000%Q; gst := 7200%Q; total := 47200%Q |}
  /\ computeOneTimePrice "PLAN_CALL" (Some 0%Q)
     = Priced {| base := 5000%Q; gst := 900%Q; total := 5900%Q |}
  /\ computeOneTimePrice "AD_HOC" (Some 25%Q)
     = Priced {| base := 25%Q; gst := 5%Q; total := 30%Q |}
  /\ validateOffer [] 0 (Some "PLAN_60") None None
     = VONotApplied "PLAN_60" {| base := 40000%Q; gst := 7200%Q; total := 47200%Q |} 47200%Q.
Proof. repeat split; vm_compute; reflexivity. Qed.

(** A plan id that is neither a key of the table nor a name inherited from
    [Object.prototype] is priced at zero when no positive override is given. *)
Lemma computeOneTimePrice_unknown_plan (planId : string) (customBasePrice : option Q) :
  noOverride customBasePrice ->
  ownProperty ONE_TIME_PLAN_PRICES planId = None ->
  includes Object_prototype_members planId = false ->
  computeOneTimePrice planId customBasePrice
  = Priced {| base := 0%Q; gst := 0%Q; total := 0%Q |}.
Proof.
  intros Hno Hown Hproto. unfold computeOneTimePrice.
  rewrite oneTimeBase_noOverride by exact Hno.
  unfold get_property. rewrite Hown, Hproto. reflexivity.
Qed.

(** A plan id that names a member of [Object.prototype] reads that member
    from the table: no zero quote comes back. *)
Lemma computeOneTimePrice_inherited (planId : string) (customBasePrice : option Q) :
  noOverride customBasePrice ->
  includes Object_prototype_members planId = true ->
  computeOneTimePrice planId customBasePrice = NonNumeric planId.
Proof.
  intros Hno Hproto. unfold computeOneTimePrice.
  rewrite oneTimeBase_noOverride by exact Hno.
  assert (Hown : ownProperty ONE_TIME_PLAN_PRICES planId = None).
  { unfold includes in Hproto. apply existsb_exists in Hproto.
    destruct Hproto as (m & Hin & Heq). apply String.eqb_eq in Heq. subst m.
    cbn [In Object_prototype_members] in Hin.
    repeat (destruct Hin as [<- | Hin]; [ reflexivity | ]). destruct Hin. }
  unfold get_property. rewrite Hown, Hproto. reflexivity.
Qed.

(** C10 (the code at the failing input).  The plan id "constructor" is not a
    key of the one-time price table, yet with no override
    [computeOneTimePrice] does not return the zero quote, and
    [POST /api/validate-offer] answers without a numeric total; an unknown
    plan id that is no inherited name gets the zero quote. *)
Theorem computeOneTimePrice_inherited_plan_id :
  ownProperty ONE_TIME_PLAN_PRICES "constructor" = None
  /\ computeOneTimePrice "constructor" None = NonNumeric "constructor"
  /\ validateOffer [] 0 (Some "constructor") None None = VONonNumeric "constructor"
  /\ computeOneTimePrice "PLAN_999" None
     = Priced {| base := 0%Q; gst := 0%Q; total := 0%Q |}
  /\ validateOffer [] 0 (Some "PLAN_999") None None
     = VONotApplied "PLAN_999" {| base := 0%Q; gst := 0%Q; total := 0%Q |} 0%Q.
Proof.
  split; [ reflexivity | ].
  split; [ apply computeOneTimePrice_inherited; [ exact I | reflexivity ] | ].
  split; [ vm_compute; reflexivity | ].
  split; [ apply computeOneTimePrice_unknown_plan; [ exact I | reflexivity .. ] | ].
  vm_compute. reflexivity.
Qed.

(** ** Offer resolution *)

Lemma falsyString_false (c : string) : falsyString (Some c) = false <-> c <> "".
Proof.
  destruct c; cbn; split; intros H; congruence.
Qed.

Lemma orString_truthy (c d : string) : c <> "" -> orString (Some c) d = c.
Proof. destruct c; [ congruence | reflexivity ]. Qed.

(** With a code present, resolution is [offers.find] followed by the checks. *)
Lemma validateOfferForPlan_find (file : list Offer) (now : Z) (planId c : string) :
  c <> "" ->
  validateOfferForPlan file now planId (Some c)
  = match find (codeMatches (toUpperCase (trim c))) (loadOffers file) with
    | Some o => checkOffer now planId o
    | None => Invalid
    end.
Proof.
  intros Hc. unfold validateOfferForPlan.
  rewrite (proj2 (falsyString_false c) Hc), (orString_truthy c "" Hc).
  destruct (loadOffers file); reflexivity.
Qed.

Lemma codeMatches_upgradeOffer (c : string) (o : Offer) :
  codeMatches c (upgradeOffer o) = codeMatches c o.
Proof. reflexivity. Qed.

Lemma checkOffer_passesGates (now : Z) (planId : string) (o : Offer) :
  checkOffer now planId o = if passesGates now planId o then Valid o else Invalid.
Proof.
  unfold checkOffer, passesGates.
  destruct (isActive o); [ | reflexivity ].
  destruct (beforeStart now (windowStart o)); [ reflexivity | ].
  destruct (afterEnd now (windowEnd o)); [ reflexivity | ].
  destruct (offerPlans o) as [|p ps]; [ reflexivity | ].
  cbn [length negb andb]. 
  replace (0 <? Z.of_nat (S (length ps))) with true by (symmetry; apply Z.ltb_lt; lia).
  cbn [andb]. destruct (includes (p :: ps) planId); reflexivity.
Qed.


Lemma find_first_match {A : Type} (f : A -> bool) (pre post : list A) (x : A) :
  Forall (fun y => f y = false) pre -> f x = true ->
  find f (pre ++ x :: post) = Some x.
Proof.
  intros Hpre Hx. induction Hpre as [|y pre Hy _ IH]; cbn [app find].
  - rewrite Hx. reflexivity.
  - rewrite Hy. exact IH.
Qed.

(** C9.  When several stored offers carry the code, the earliest one in the
    stored list is selected: the result is the outcome of the checks on that
    offer alone (its active flag, validity window and plan list), whatever
    follows it in the list. *)
Theorem earliest_offer_with_code_decides
    (pre post : list Offer) (o : Offer) (now : Z) (planId c : string) :
  c <> "" ->
  Forall (fun x => codeMatches (toUpperCase (trim c)) x = false) pre ->
  codeMatches (toUpperCase (trim c)) o = true ->
  validateOfferForPlan (pre ++ o :: post) now planId (Some c)
  = (if passesGates now planId (upgradeOffer o) then Valid (upgradeOffer o) else Invalid)
  /\ validateOfferForPlan (pre ++ o :: post) now planId (Some c)
     = validateOfferForPlan [o] now planId (Some c).
Proof.
  intros Hc Hpre Ho.
  assert (Hfind : forall post',
             find (codeMatches (toUpperCase (trim c))) (loadOffers (pre ++ o :: post'))
             = Some (upgradeOffer o)).
  { intros post'. unfold loadOffers. rewrite map_app. cbn [map].
    apply find_first_match.
    - induction Hpre as [|y pre' Hy _ IH]; cbn [map]; constructor.
      + rewrite codeMatches_upgradeOffer. exact Hy.
      + exact IH.
    - rewrite codeMatches_upgradeOffer. exact Ho. }
  split.
  - rewrite validateOfferForPlan_find by exact Hc.
    rewrite Hfind. apply checkOffer_passesGates.
  - rewrite !validateOfferForPlan_find by exact Hc.
    rewrite Hfind. cbn [loadOffers map find].
    rewrite codeMatches_upgradeOffer, Ho. reflexivity.
Qed.

Lemma earliest_offer_with_code_decides_witness :
  let other := currentOffer "WELCOME" "PERCENT" 5%Q true [] in
  let off := currentOffer "save10" "FIXED" 1000%Q false ["ENT_90"] in
  let on := currentOffer "SAVE10" "FIXED" 1000%Q true ["ENT_90"] in
  " Save10 " <> ""
  /\ Forall (fun x => codeMatches (toUpperCase (trim " Save10 ")) x = false) [other]
  /\ codeMatches (toUpperCase (trim " Save10 ")) off = true
  /\ validateOfferForPlan [other; off; on] 1000 "ENT_90" (Some " Save10 ") = Invalid
  /\ validateOfferForPlan ([other] ++ off :: [on]) 1000 "ENT_90" (Some " Save10 ")
     = validateOfferForPlan [off] 1000 "ENT_90" (Some " Save10 ").
Proof.
  intros other off on.
  assert (Hc : " Save10 " <> "") by discriminate.
  assert (Hpre : Forall (fun x => codeMatches (toUpperCase (trim " Save10 ")) x = false)
                   [other]) by (repeat constructor).
  assert (Ho : codeMatches (toUpperCase (trim " Save10 ")) off = true) by reflexivity.
  pose proof (earliest_offer_with_code_decides [other] [on] off 1000 "ENT_90" " Save10 "
                Hc Hpre Ho) as [Hgate Hsame].
  split; [ exact Hc | ]. split; [ exact Hpre | ]. split; [ exact Ho | ].
  split; [ | exact Hsame ].
  exact (eq_trans Hgate eq_refl).
Defined.




(** Disabled, out of window, and restricted to other plans: none resolves,
    with the right code. *)
Example gated_offers_do_not_resolve :
  let window (s e : option JsDate) (o : Offer) : Offer :=
    {| code := code o; type := type o; amount := amount o;
       description := description o; active := active o; enabled := enabled o;
       appliesTo := appliesTo o; usageLimit := usageLimit o; used := used o;
       validity := Some {| start := s; finish := e |};
       applicablePlans := applicablePlans o; flatBillingTypes := flatBillingTypes o;
       flatCountries := flatCountries o; startAt := startAt o; endAt := endAt o;
       notes := notes o |} in
  validateOfferForPlan [currentOffer "SAVE10" "FIXED" 1000%Q false ["ENT_90"]] 1000
    "ENT_90" (Some "SAVE10") = Invalid
  /\ validateOfferForPlan [window (Some (DateMs 2000)) None SAVE10] 1000
       "ENT_90" (Some "SAVE10") = Invalid
  /\ validateOfferForPlan [window None (Some (DateMs 500)) SAVE10] 1000
       "ENT_90" (Some "SAVE10") = Invalid
  /\ validateOfferForPlan [SAVE10] 1000 "ENT_60" (Some "SAVE10") = Invalid
  /\ validateOfferForPlan [SAVE10] 1000 "ENT_90" (Some "SAVE1O") = Invalid
  /\ validateOfferForPlan [SAVE10] 1000 "ENT_90" None = Invalid
  /\ validateOfferForPlan [window (Some (DateMs 500)) (Some (DateMs 2000)) SAVE10] 1000
       "ENT_90" (Some "SAVE10")
     = Valid (upgradeOffer (window (Some (DateMs 500)) (Some (DateMs 2000)) SAVE10)).
Proof. repeat split; vm_compute; reflexivity. Qed.

(** ** Codes as the admin routes store them *)

Lemma isWhiteSpace_toUpperChar (c : ascii) :
  isWhiteSpace (toUpperChar c) = isWhiteSpace c.
Proof. each_char c; reflexivity. Qed.

Lemma toUpperChar_idem (c : ascii) : toUpperChar (toUpperChar c) = toUpperChar c.
Proof. each_char c; reflexivity. Qed.

Lemma toUpperCase_idem (s : string) : toUpperCase (toUpperCase s) = toUpperCase s.
Proof.
  unfold toUpperCase. induction s as [|c s IH]; cbn [mapString];
    [ reflexivity | rewrite toUpperChar_idem, IH; reflexivity ].
Qed.

Lemma dropWhile_mapString (p : ascii -> bool) (f : ascii -> ascii) (s : string) :
  (forall c, p (f c) = p c) ->
  dropWhile p (mapString f s) = mapString f (dropWhile p s).
Proof.
  intros Hpf. induction s as [|c s IH]; cbn [mapString dropWhile]; [ reflexivity | ].
  rewrite Hpf. destruct (p c); [ exact IH | reflexivity ].
Qed.

Lemma dropWhileEnd_mapString (p : ascii -> bool) (f : ascii -> ascii) (s : string) :
  (forall c, p (f c) = p c) ->
  dropWhileEnd p (mapString f s) = mapString f (dropWhileEnd p s).
Proof.
  intros Hpf. induction s as [|c s IH]; cbn [mapString dropWhileEnd]; [ reflexivity | ].
  rewrite IH, Hpf. destruct (dropWhileEnd p s); cbn [mapString];
    [ destruct (p c); reflexivity | reflexivity ].
Qed.

Lemma trim_toUpperCase (s : string) : trim (toUpperCase s) = toUpperCase (trim s).
Proof.
  unfold trim, toUpperCase.
  rewrite dropWhile_mapString by exact isWhiteSpace_toUpperChar.
  apply dropWhileEnd_mapString. exact isWhiteSpace_toUpperChar.
Qed.

Lemma dropWhileEnd_idem (p : ascii -> bool) (s : string) :
  dropWhileEnd p (dropWhileEnd p s) = dropWhileEnd p s.
Proof.
  induction s as [|c s IH]; cbn [dropWhileEnd]; [ reflexivity | ].
  destruct (dropWhileEnd p s) as [|d r] eqn:Hr.
  - destruct (p c) eqn:Hc; cbn [dropWhileEnd]; [ reflexivity | rewrite Hc; reflexivity ].
  - cbn [dropWhileEnd]. cbn [dropWhileEnd] in IH. rewrite IH. reflexivity.
Qed.

(** What [dropWhile] leaves does not start with a character it drops, and
    [dropWhileEnd] keeps such a first character. *)
Lemma dropWhile_head (p : ascii -> bool) (s : string) :
  dropWhile p s = "" \/ exists c r, dropWhile p s = String c r /\ p c = false.
Proof.
  induction s as [|c s IH]; cbn [dropWhile]; [ left; reflexivity | ].
  destruct (p c) eqn:Hc; [ exact IH | right; exists c, s; auto ].
Qed.

Lemma dropWhileEnd_head (p : ascii -> bool) (c : ascii) (r : string) :
  p c = false -> exists r', dropWhileEnd p (String c r) = String c r'.
Proof.
  intros Hc. cbn [dropWhileEnd]. rewrite Hc.
  destruct (dropWhileEnd p r) as [|d r']; eauto.
Qed.

Lemma trim_idem (s : string) : trim (trim s) = trim s.
Proof.
  unfold trim.
  destruct (dropWhile_head isWhiteSpace s) as [-> | (c & r & -> & Hc)]; [ reflexivity | ].
  destruct (dropWhileEnd_head isWhiteSpace c r Hc) as (r' & Hr').
  rewrite Hr'. cbn [dropWhile]. rewrite Hc, <- Hr'. apply dropWhileEnd_idem.
Qed.

Lemma normalizedCode_idem (x : string) :
  normalizedCode (normalizedCode x) = normalizedCode x.
Proof.
  unfold normalizedCode.
  rewrite trim_toUpperCase, trim_idem, toUpperCase_idem. reflexivity.
Qed.

(** For a record whose code an admin route wrote, the comparison of
    [validateOfferForPlan] is the comparison of the trimmed, upper-cased
    forms of both codes. *)
Lemma admin_code_matches_trimmed_on_both_sides (o : Offer) (x c : string) :
  code o = Some (normalizedCode x) -> normalizedCode x <> "" ->
  codeMatches (toUpperCase (trim c)) o
  = String.eqb (toUpperCase (trim (normalizedCode x))) (toUpperCase (trim c)).
Proof.
  intros Hcode Hne. unfold codeMatches. rewrite Hcode.
  rewrite (orString_truthy _ "" Hne).
  fold (normalizedCode (normalizedCode x)). rewrite normalizedCode_idem.
  unfold normalizedCode. rewrite toUpperCase_idem. reflexivity.
Qed.

(** ** The billing-type and country lists *)

Lemma sameButFilters_upgradeOffer (o1 o2 : Offer) :
  sameButFilters o1 o2 -> sameButFilters (upgradeOffer o1) (upgradeOffer o2).
Proof.
  unfold sameButFilters.
  intros (Hcode & Htype & Hamt & Hdesc & Hact & Hen & Hlim & Hused & Hval
          & Hplans & Hs & He & Hnotes & Happ).
  unfold upgradeOffer; cbn.
  rewrite Hcode, Htype, Hamt, Hdesc, Hact, Hen, Hlim, Hused, Hval, Hplans, Hs, He, Hnotes.
  repeat (split; [ reflexivity | ]).
  destruct (appliesTo o1) as [a1|], (appliesTo o2) as [a2|]; try contradiction.
  - rewrite Happ. reflexivity.
  - reflexivity.
Qed.

Lemma sameButFilters_offerPlans (o1 o2 : Offer) :
  sameButFilters o1 o2 -> offerPlans o1 = offerPlans o2.
Proof.
  unfold sameButFilters, offerPlans.
  intros (_ & _ & _ & _ & _ & _ & _ & _ & _ & Hplans & _ & _ & _ & Happ).
  rewrite Hplans.
  destruct (appliesTo o1) as [a1|], (appliesTo o2) as [a2|]; try contradiction.
  - rewrite Happ. reflexivity.
  - reflexivity.
Qed.

Lemma sameButFilters_passesGates (now : Z) (planId : string) (o1 o2 : Offer) :
  sameButFilters o1 o2 -> passesGates now planId o1 = passesGates now planId o2.
Proof.
  intros H. unfold passesGates.
  rewrite (sameButFilters_offerPlans o1 o2 H).
  destruct H as (_ & _ & _ & _ & Hact & Hen & _ & _ & Hval & _ & Hs & He & _).
  unfold isActive, windowStart, windowEnd. rewrite Hact, Hen, Hval, Hs, He.
  reflexivity.
Qed.

Lemma sameButFilters_applyOffer (totalAmount : Q) (o1 o2 : Offer) :
  sameButFilters o1 o2 ->
  applyOffer totalAmount (Some o1) = applyOffer totalAmount (Some o2).
Proof.
  intros (Hcode & Htype & Hamt & _).
  unfold applyOffer, rawDiscount, typeIs, amountOrZero.
  rewrite Hcode, Htype, Hamt. reflexivity.
Qed.

Lemma find_related (l1 l2 : list Offer) (f : Offer -> bool) :
  (forall a b, sameButFilters a b -> f a = f b) ->
  Forall2 sameButFilters l1 l2 ->
  match find f l1, find f l2 with
  | Some a, Some b => sameButFilters a b
  | None, None => True
  | _, _ => False
  end.
Proof.
  intros Hf Hrel. induction Hrel as [|a b l1 l2 Hab _ IH]; cbn [find].
  - exact I.
  - rewrite <- (Hf a b Hab). destruct (f a); [ exact Hab | exact IH ].
Qed.

Lemma loadOffers_related (file1 file2 : list Offer) :
  Forall2 sameButFilters file1 file2 ->
  Forall2 sameButFilters (loadOffers file1) (loadOffers file2).
Proof.
  intros Hrel. unfold loadOffers.
  induction Hrel as [|a b l1 l2 Hab _ IH]; cbn [map]; constructor.
  - apply sameButFilters_upgradeOffer. exact Hab.
  - exact IH.
Qed.

(** C7.  Two stores whose records differ only in their billing-type and
    country lists resolve every plan id and coupon code alike: both fail, or
    both succeed with records that differ only in those lists, and the
    discount applied to any total is then the same. *)
Theorem resolution_ignores_billing_and_country_lists
    (file1 file2 : list Offer) (now : Z) (planId : string) (couponCode : option string) :
  Forall2 sameButFilters file1 file2 ->
  sameOutcome (validateOfferForPlan file1 now planId couponCode)
              (validateOfferForPlan file2 now planId couponCode)
  /\ forall o1 o2 totalAmount,
       validateOfferForPlan file1 now planId couponCode = Valid o1 ->
       validateOfferForPlan file2 now planId couponCode = Valid o2 ->
       applyOffer totalAmount (Some o1) = applyOffer totalAmount (Some o2).
Proof.
  intros Hrel.
  assert (Hsame : sameOutcome (validateOfferForPlan file1 now planId couponCode)
                              (validateOfferForPlan file2 now planId couponCode)).
  { destruct couponCode as [c|]; [ | exact I ].
    destruct (string_dec c "") as [-> | Hc]; [ exact I | ].
    rewrite !validateOfferForPlan_find by exact Hc.
    pose proof (find_related (loadOffers file1) (loadOffers file2)
                  (codeMatches (toUpperCase (trim c)))) as Hfind.
    specialize (Hfind
      (fun a b Hab => f_equal (fun x => String.eqb (toUpperCase (orString x "")) _)
                        (proj1 Hab))
      (loadOffers_related file1 file2 Hrel)).
    destruct (find _ (loadOffers file1)) as [a|], (find _ (loadOffers file2)) as [b|];
      try contradiction; [ | exact I ].
    rewrite !checkOffer_passesGates.
    rewrite (sameButFilters_passesGates now planId a b Hfind).
    destruct (passesGates now planId b); [ exact Hfind | exact I ]. }
  split; [ exact Hsame | ].
  intros o1 o2 totalAmount H1 H2. rewrite H1, H2 in Hsame.
  apply sameButFilters_applyOffer. exact Hsame.
Qed.

Lemma resolution_ignores_billing_and_country_lists_witness :
  let retarget (o : Offer) : Offer :=
    {| code := code o; type := type o; amount := amount o;
       description := description o; active := active o; enabled := enabled o;
       appliesTo := Some {| plans := Some ["ENT_90"]; billingTypes := Some ["one_time"];
                            countries := Some ["Japan"] |};
       usageLimit := usageLimit o; used := used o; validity := validity o;
       applicablePlans := applicablePlans o; flatBillingTypes := Some ["weekly"];
       flatCountries := flatCountries o; startAt := startAt o; endAt := endAt o;
       notes := notes o |} in
  Forall2 sameButFilters [SAVE10] [retarget SAVE10]
  /\ validateOfferForPlan [SAVE10] 1000 "ENT_90" (Some "save10") = Valid (upgradeOffer SAVE10)
  /\ validateOfferForPlan [retarget SAVE10] 1000 "ENT_90" (Some "save10")
     = Valid (upgradeOffer (retarget SAVE10))
  /\ applyOffer 566400%Q (Some (upgradeOffer SAVE10))
     = applyOffer 566400%Q (Some (upgradeOffer (retarget SAVE10))).
Proof.
  intros retarget.
  assert (Hrel : Forall2 sameButFilters [SAVE10] [retarget SAVE10]).
  { repeat constructor. }
  assert (H1 : validateOfferForPlan [SAVE10] 1000 "ENT_90" (Some "save10")
               = Valid (upgradeOffer SAVE10)) by (vm_compute; reflexivity).
  assert (H2 : validateOfferForPlan [retarget SAVE10] 1000 "ENT_90" (Some "save10")
               = Valid (upgradeOffer (retarget SAVE10))) by (vm_compute; reflexivity).
  split; [ exact Hrel | ]. split; [ exact H1 | ]. split; [ exact H2 | ].
  exact (proj2 (resolution_ignores_billing_and_country_lists
                  [SAVE10] [retarget SAVE10] 1000 "ENT_90" (Some "save10") Hrel)
           _ _ 566400%Q H1 H2).
Defined.

(** ** Strings and base64 *)

Lemma append_cons (c : ascii) (s t : string) : String c s +:+ t = String c (s +:+ t).
Proof. reflexivity. Qed.

Lemma append_nil (t : string) : "" +:+ t = t.
Proof. reflexivity. Qed.

Lemma mapString_app (f : ascii -> ascii) (s t : string) :
  mapString f (s +:+ t) = mapString f s +:+ mapString f t.
Proof.
  induction s as [|c s IH].
  - reflexivity.
  - cbn [mapString]. rewrite !append_cons. cbn [mapString]. rewrite IH. reflexivity.
Qed.

Lemma mapString_of_list (f : ascii -> ascii) (l : list ascii) :
  mapString f (string_of_list_ascii l) = string_of_list_ascii (map f l).
Proof. induction l as [|c l IH]; cbn; [ reflexivity | rewrite IH; reflexivity ]. Qed.

Lemma dropWhileEnd_all (p : ascii -> bool) (t : string) :
  stringAll p t = true -> dropWhileEnd p t = "".
Proof.
  induction t as [|c t IH]; cbn; [ reflexivity | ].
  intros H. apply andb_true_iff in H. destruct H as [Hc Ht].
  rewrite (IH Ht), Hc. reflexivity.
Qed.

Lemma dropWhileEnd_none (p : ascii -> bool) (s : string) :
  stringAll (fun c => negb (p c)) s = true -> dropWhileEnd p s = s.
Proof.
  induction s as [|c s IH]; cbn; [ reflexivity | ].
  intros H. apply andb_true_iff in H. destruct H as [Hc Hs].
  rewrite (IH Hs). apply negb_true_iff in Hc. rewrite Hc.
  destruct s; reflexivity.
Qed.

Lemma dropWhileEnd_app (p : ascii -> bool) (s t : string) :
  stringAll (fun c => negb (p c)) s = true -> stringAll p t = true ->
  dropWhileEnd p (s +:+ t) = s.
Proof.
  induction s as [|c s IH]; cbn [stringAll].
  - intros _ Ht. rewrite append_nil. apply dropWhileEnd_all. exact Ht.
  - intros H Ht. apply andb_true_iff in H. destruct H as [Hc Hs].
    rewrite append_cons. cbn [dropWhileEnd]. rewrite (IH Hs Ht).
    apply negb_true_iff in Hc. rewrite Hc. destruct s; reflexivity.
Qed.

Lemma stringAll_of_list (p : ascii -> bool) (l : list ascii) :
  stringAll p (string_of_list_ascii l) = forallb p l.
Proof. induction l as [|c l IH]; cbn; [ reflexivity | rewrite IH; reflexivity ]. Qed.

Lemma string_of_list_ascii_inj (l1 l2 : list ascii) :
  string_of_list_ascii l1 = string_of_list_ascii l2 -> l1 = l2.
Proof.
  intros H. rewrite <- (list_ascii_of_string_of_list_ascii l1),
    <- (list_ascii_of_string_of_list_ascii l2), H. reflexivity.
Qed.

Lemma map_inj {A B : Type} (f : A -> B) (l1 l2 : list A) :
  (forall x y, f x = f y -> x = y) -> map f l1 = map f l2 -> l1 = l2.
Proof.
  intros Hf. revert l2. induction l1 as [|x l1 IH]; intros [|y l2] H;
    try discriminate H; [ reflexivity | ].
  cbn [map] in H. inversion H as [[Hxy Hrest]].
  rewrite (Hf x y Hxy), (IH l2 Hrest). reflexivity.
Qed.

Lemma urlChar_urlSafe (s : sextet) : urlSafeChar (urlChar s) = true.
Proof. each_sextet s; reflexivity. Qed.

Lemma urlChar_not_pad (s : sextet) : Ascii.eqb "="%char (urlChar s) = false.
Proof. each_sextet s; reflexivity. Qed.

Lemma urlChar_inj (s t : sextet) : urlChar s = urlChar t -> s = t.
Proof.
  each_sextet s; each_sextet t; intros H;
    first [ reflexivity | vm_compute in H; discriminate H ].
Qed.

Lemma urlChar_replace (s : sextet) :
  (fun x => if Ascii.eqb x "/"%char then "_"%char else x)
    ((fun x => if Ascii.eqb x "+"%char then "-"%char else x) (base64Char s))
  = urlChar s.
Proof. reflexivity. Qed.

Lemma base64Padding_cases (n : nat) :
  base64Padding n = "" \/ base64Padding n = "=" \/ base64Padding n = "==".
Proof.
  unfold base64Padding. destruct (n mod 3)%nat as [|[|[|k]]]; auto.
Qed.

(** [base64url] emits one character per 6-bit group and nothing else: the
    padding is the part the last [replace] removes. *)
Lemma base64url_sextets (buffer : list byte) :
  base64url buffer = string_of_list_ascii (map urlChar (sextets buffer)).
Proof.
  unfold base64url, toBase64, replaceChar.
  rewrite !mapString_app, !mapString_of_list, map_map, map_map.
  assert (Hpad : mapString (fun x => if Ascii.eqb x "/"%char then "_"%char else x)
                   (mapString (fun x => if Ascii.eqb x "+"%char then "-"%char else x)
                      (base64Padding (length buffer)))
                 = base64Padding (length buffer)).
  { destruct (base64Padding_cases (length buffer)) as [-> | [-> | ->]]; reflexivity. }
  rewrite Hpad.
  rewrite (map_ext _ urlChar urlChar_replace).
  apply dropWhileEnd_app.
  - rewrite stringAll_of_list. apply forallb_forall. intros c Hc.
    apply in_map_iff in Hc. destruct Hc as (s & <- & _).
    cbv beta. rewrite urlChar_not_pad. reflexivity.
  - destruct (base64Padding_cases (length buffer)) as [-> | [-> | ->]]; reflexivity.
Qed.

Lemma list_ind3 {A : Type} (P : list A -> Prop) :
  P [] -> (forall x, P [x]) -> (forall x y, P [x; y]) ->
  (forall x y z l, P l -> P (x :: y :: z :: l)) ->
  forall l, P l.
Proof.
  intros H0 H1 H2 H3. fix IH 1.
  intros [|x [|y [|z l]]]; [ exact H0 | apply H1 | apply H2 | ].
  apply H3. apply IH.
Qed.

Lemma sextets_inj (b1 b2 : list byte) : sextets b1 = sextets b2 -> b1 = b2.
Proof.
  revert b2. induction b1 as [|x|x y|x y z l IH] using list_ind3;
    intros [|x' [|y' [|z' l']]]; cbn [sextets];
    try bits_of x; try bits_of y; try bits_of z;
    try bits_of x'; try bits_of y'; try bits_of z';
    intros H; try discriminate H; try reflexivity.
  - inversion H; subst. same_byte x x'. reflexivity.
  - inversion H; subst. same_byte x x'. same_byte y y'. reflexivity.
  - inversion H; subst.
    same_byte x x'. same_byte y y'. same_byte z z'.
    match goal with
    | Hrest : sextets l = sextets l' |- _ => rewrite (IH l' Hrest)
    end.
    reflexivity.
Qed.

Lemma base64url_inj (b1 b2 : list byte) : base64url b1 = base64url b2 -> b1 = b2.
Proof.
  rewrite !base64url_sextets. intros H.
  apply sextets_inj. apply (map_inj urlChar); [ exact urlChar_inj | ].
  apply string_of_list_ascii_inj. exact H.
Qed.

Lemma base64url_urlSafe (buffer : list byte) :
  stringAll urlSafeChar (base64url buffer) = true.
Proof.
  rewrite base64url_sextets, stringAll_of_list. apply forallb_forall.
  intros c Hc. apply in_map_iff in Hc. destruct Hc as (s & <- & _).
  apply urlChar_urlSafe.
Qed.

(** RFC 4648 test vectors, and the two characters that differ from plain
    base64. *)
Example base64_vectors :
  toBase64 (list_byte_of_string "f") = "Zg=="
  /\ toBase64 (list_byte_of_string "fo") = "Zm8="
  /\ toBase64 (list_byte_of_string "foo") = "Zm9v"
  /\ toBase64 (list_byte_of_string "foobar") = "Zm9vYmFy"
  /\ base64url (list_byte_of_string "foob") = "Zm9vYg"
  /\ toBase64 [ "251"%byte; "255"%byte ] = "+/8="
  /\ base64url [ "251"%byte; "255"%byte ] = "-_8".
Proof. repeat split; vm_compute; reflexivity. Qed.

(** ** The canonical string and the comparison *)

Lemma append_inj_l (s x y : string) : s +:+ x = s +:+ y -> x = y.
Proof.
  induction s as [|c s IH]; [ trivial | ].
  rewrite !append_cons. intros H. inversion H. auto.
Qed.

(** A string without "|" followed by "|" is read back without ambiguity. *)
Lemma append_bar_inj (a b x y : string) :
  noBar a = true -> noBar b = true ->
  a +:+ String "|"%char x = b +:+ String "|"%char y -> a = b /\ x = y.
Proof.
  revert b. induction a as [|c a IH]; intros [|d b] Ha Hb H.
  - rewrite !append_nil in H. inversion H. auto.
  - rewrite append_nil, append_cons in H. inversion H; subst d.
    cbn in Hb. discriminate Hb.
  - rewrite append_nil, append_cons in H. inversion H; subst c.
    cbn in Ha. discriminate Ha.
  - rewrite !append_cons in H. inversion H; subst d.
    cbn [noBar stringAll] in Ha, Hb.
    apply andb_true_iff in Ha. apply andb_true_iff in Hb.
    destruct (IH b (proj2 Ha) (proj2 Hb) H2) as [-> ->]. auto.
Qed.


Lemma timingSafeEqual_eq (aa bb : list byte) :
  length aa = length bb -> timingSafeEqual aa bb = true -> aa = bb.
Proof.
  unfold timingSafeEqual. revert bb.
  induction aa as [|x aa IH]; intros [|y bb] Hlen H; try discriminate Hlen.
  - reflexivity.
  - cbn [combine forallb fst snd] in H. apply andb_true_iff in H.
    destruct H as [Hxy Hrest]. apply Byte.byte_dec_bl in Hxy. subst y.
    rewrite (IH bb); [ reflexivity | | exact Hrest ].
    cbn [length] in Hlen. congruence.
Qed.

Lemma timingSafeEqual_refl (aa : list byte) : timingSafeEqual aa aa = true.
Proof.
  unfold timingSafeEqual. induction aa as [|x aa IH]; [ reflexivity | ].
  cbn [combine forallb fst snd]. rewrite IH, Byte.byte_dec_lb; reflexivity.
Qed.

(** [timingSafeEqualStr] decides equality of the two strings. *)
Lemma timingSafeEqualStr_true (a b : string) :
  timingSafeEqualStr a b = true <-> a = b.
Proof.
  unfold timingSafeEqualStr. split.
  - destruct (Nat.eqb (length (list_byte_of_string a)) (length (list_byte_of_string b)))
      eqn:Hlen; cbn [negb]; [ | discriminate ].
    apply Nat.eqb_eq in Hlen. intros H.
    apply timingSafeEqual_eq in H; [ | exact Hlen ].
    rewrite <- (string_of_list_byte_of_string a), <- (string_of_list_byte_of_string b), H.
    reflexivity.
  - intros ->. rewrite Nat.eqb_refl. cbn [negb]. apply timingSafeEqual_refl.
Qed.

Section ThankYouProperties.

Variable hmacSha256 : string -> string -> list byte.
Variable Number : string -> option Q.

Lemma signThankYouV1_unconfigured (order_id payment_id ts : string) :
  signThankYouV1 hmacSha256 None order_id payment_id ts
  = SignThrown "THANKYOU_SIG_SECRET not configured"
  /\ signThankYouV1 hmacSha256 (Some "") order_id payment_id ts
     = SignThrown "THANKYOU_SIG_SECRET not configured".
Proof. split; reflexivity. Qed.


End ThankYouProperties.



(** ** The retrieval route *)

Section RetrievalRoute.

Variable hmacSha256 : string -> string -> list byte.
Variable Number : string -> option Q.

(** C4.  A retrieval request that reaches the freshness test (secret
    configured, version v1, the four parameters present, a finite
    timestamp) and whose timestamp, read in milliseconds, is more than
    15 minutes away from the clock is answered with status 401 and code
    EXPIRED_TS, whatever the supplied signature (the correct one included) and
    whatever the contract store holds; the store is not read and not
    changed. *)
Theorem stale_timestamp_is_expired
    (secret : string) (now : Z) (store : gmap string StoreEntry)
    (ver : option string) (order_id payment_id ts sig : string) (tsNum : Q) :
  secret <> "" ->
  orString ver "v1" = "v1" ->
  order_id <> "" -> payment_id <> "" -> ts <> "" -> sig <> "" ->
  Number ts = Some tsNum ->
  let tsMs := if (13 <=? String.length ts)%nat then tsNum else (tsNum * 1000)%Q in
  (inject_Z (15 * 60 * 1000) < Qabs (inject_Z now - tsMs))%Q ->
  thankYouContract hmacSha256 Number (Some secret) now store
    {| q_version := ver; q_order_id := Some order_id; q_payment_id := Some payment_id;
       q_ts := Some ts; q_sig := Some sig |}
  = ({| status := 401; body := ErrorJson EXPIRED_TS "Link expired." |}, store).
Proof.
  intros Hsecret Hver Ho Hp Hts Hsig Hnum tsMs Hage.
  unfold thankYouContract. cbn [q_version q_order_id q_payment_id q_ts q_sig].
  rewrite (proj2 (falsyString_false secret) Hsecret), Hver.
  rewrite !orString_truthy by assumption.
  assert (Hne : forall s, s <> "" -> String.eqb s "" = false).
  { intros s Hs. apply String.eqb_neq. exact Hs. }
  rewrite (Hne order_id Ho), (Hne payment_id Hp), (Hne ts Hts), (Hne sig Hsig).
  cbn [String.eqb negb orb]. rewrite Hnum.
  fold tsMs. apply Qltb_lt in Hage. rewrite Hage. reflexivity.
Qed.

End RetrievalRoute.

Lemma stale_timestamp_is_expired_witness :
  let ts := "1700000000000" in
  let now := 1700000000000 + 16 * 60 * 1000 in
  let sig := base64url (keyedDigest "s3cret" (thankYouCanonical "order_N1" "pay_N1" ts)) in
  let store := storeThankYouContract 1700000000000 "order_N1" "pay_N1" sampleContract ∅ in
  signThankYouV1 keyedDigest (Some "s3cret") "order_N1" "pay_N1" ts = Signature sig
  /\ snd (getThankYouContract now "order_N1" "pay_N1" store) = Some sampleContract
  /\ thankYouContract keyedDigest decimalNumber (Some "s3cret") now store
       {| q_version := Some "v1"; q_order_id := Some "order_N1";
          q_payment_id := Some "pay_N1"; q_ts := Some ts; q_sig := Some sig |}
     = ({| status := 401; body := ErrorJson EXPIRED_TS "Link expired." |}, store).
Proof.
  intros ts now sig store.
  split; [ reflexivity | ].
  split; [ vm_compute; reflexivity | ].
  apply (stale_timestamp_is_expired keyedDigest decimalNumber "s3cret" now store
           (Some "v1") "order_N1" "pay_N1" ts sig 1700000000000%Q);
    try discriminate; try reflexivity.
Defined.

(** The same request one minute inside the window, a request with a wrong
    signature, a timestamp in seconds, and a contract that has left the store. *)
Example retrieval_outcomes :
  let ts := "1700000000000" in
  let sig := base64url (keyedDigest "s3cret" (thankYouCanonical "order_N1" "pay_N1" ts)) in
  let store := storeThankYouContract 1700000000000 "order_N1" "pay_N1" sampleContract ∅ in
  let request (t s : string) :=
    {| q_version := None; q_order_id := Some "order_N1"; q_payment_id := Some "pay_N1";
       q_ts := Some t; q_sig := Some s |} in
  fst (thankYouContract keyedDigest decimalNumber (Some "s3cret")
         (1700000000000 + 14 * 60 * 1000) store (request ts sig))
  = {| status := 200; body := ContractJson sampleContract |}
  /\ fst (thankYouContract keyedDigest decimalNumber (Some "s3cret")
            (1700000000000 + 14 * 60 * 1000) store (request ts "AAAA"))
     = {| status := 401; body := ErrorJson INVALID_SIGNATURE "Verification failed." |}
  /\ fst (thankYouContract keyedDigest decimalNumber (Some "s3cret")
            (1700000000000 + 14 * 60 * 1000) store (request "1700000000" "AAAA"))
     = {| status := 401; body := ErrorJson INVALID_SIGNATURE "Verification failed." |}
  /\ fst (thankYouContract keyedDigest decimalNumber (Some "s3cret")
            (1700000000000 + 14 * 60 * 1000) ∅ (request ts sig))
     = {| status := 404;
          body := ErrorJson NOT_FOUND "Contract not found (try again shortly)." |}
  /\ fst (thankYouContract keyedDigest decimalNumber None
            (1700000000000 + 14 * 60 * 1000) store (request ts sig))
     = {| status := 500;
          body := ErrorJson MISCONFIGURED "THANKYOU_SIG_SECRET not configured." |}
  /\ fst (thankYouContract keyedDigest decimalNumber (Some "s3cret")
            (1700000000000 + 14 * 60 * 1000) store (request "soon" sig))
     = {| status := 400; body := ErrorJson INVALID_TS "Invalid timestamp." |}.
Proof. repeat split; vm_compute; reflexivity. Qed.

(** ** The contract store *)

Lemma purge_lookup (now : Z) (store : gmap string StoreEntry) (key : string) :
  purgeThankYouContracts now store !! key
  = match store !! key with
    | Some e => if decide (fresh now e) then Some e else None
    | None => None
    end.
Proof.
  unfold purgeThankYouContracts. rewrite map_lookup_filter.
  destruct (store !! key) as [e|]; cbn; [ | reflexivity ].
  destruct (decide (fresh now e)) as [Hf|Hf].
  - rewrite option_guard_True by exact Hf. reflexivity.
  - rewrite option_guard_False by exact Hf. reflexivity.
Qed.

(** A contract stored at time [t] is returned by a lookup made within the
    30 minutes that follow, and is gone at any later lookup. *)
Lemma contract_lives_thirty_minutes
    (t now : Z) (order_id payment_id : string) (c : Contract)
    (store : gmap string StoreEntry) :
  t <> 0 -> t <= now ->
  snd (getThankYouContract now order_id payment_id
         (storeThankYouContract t order_id payment_id c store))
  = if decide (now - t <= THANKYOU_CONTRACT_TTL_MS) then Some c else None.
Proof.
  intros Ht Hle. unfold getThankYouContract, storeThankYouContract. cbn [snd].
  rewrite purge_lookup, lookup_insert_eq.
  unfold fresh. cbn [storedAt].
  destruct (decide (now - t <= THANKYOU_CONTRACT_TTL_MS)) as [Hin|Hout].
  - rewrite decide_True by (split; assumption). reflexivity.
  - rewrite decide_False by (intros [_ H]; contradiction). reflexivity.
Qed.

Example contract_ttl :
  let stored := storeThankYouContract 1700000000000 "order_N1" "pay_N1" sampleContract ∅ in
  snd (getThankYouContract (1700000000000 + 29 * 60 * 1000) "order_N1" "pay_N1" stored)
  = Some sampleContract
  /\ snd (getThankYouContract (1700000000000 + 31 * 60 * 1000) "order_N1" "pay_N1" stored)
     = None.
Proof.
  intros stored. split.
  - unfold stored. rewrite contract_lives_thirty_minutes by lia. reflexivity.
  - unfold stored. rewrite contract_lives_thirty_minutes by lia. reflexivity.
Qed.

(** ** Binary64 *)

(** The doubles of the two rate literals are not the rationals 0.18 and 0.8,
    and yet every product of the price tables rounds to the same integer in
    binary64 as in exact arithmetic. *)
Lemma binary64_agrees_on_price_tables : Forall binary64Agrees tablePrices.
Proof.
  unfold tablePrices. cbn [app map snd ONE_TIME_PLAN_PRICES STARTER_PRO_PLAN_PRICES
                             ENTERPRISE_BASE_PRICES].
  repeat (apply List.Forall_cons;
          [ unfold binary64Agrees; repeat split; vm_compute; reflexivity | ]).
  apply List.Forall_nil.
Qed.

Example binary64_rates :
  GST_RATE64 = S754_finite false 6485183463413514 (-55)
  /\ YEARLY_FACTOR64 = S754_finite false 7205759403792794 (-53)
  /\ Math_round64 (b64_mul (b64_of_Z 50000) GST_RATE64) = Some 9000
  /\ Math_round64 (b64_mul (b64_of_Z 25) GST_RATE64) = Some 5.
Proof. repeat split; vm_compute; reflexivity. Qed.

(** ** End-to-end scenarios *)

(** Scenario B of the specification: enterprise package 90, yearly, India,
    coupon SAVE10 (FIXED 1000, active, for ENT_90). *)
Example scenario_enterprise_90_yearly_with_coupon :
  computeEnterprisePrice "90" (Some "yearly") (Some "India")
  = Priced {| base := 480000%Q; gst := 86400%Q; total := 566400%Q |}
  /\ getEnterprisePlanId "90" "yearly" = "ENT_90"
  /\ validateOfferForPlan [SAVE10] 1700000000000 "ENT_90" (Some "SAVE10")
     = Valid (upgradeOffer SAVE10)
  /\ applyOffer 566400%Q (Some (upgradeOffer SAVE10))
     = {| discount := 1000%Q; final := 565400%Q;
          text := Some (RupeesOffVia (Some 1000%Q) (Some "SAVE10")) |}.
Proof. repeat split; vm_compute; reflexivity. Qed.

(** A record of the legacy shape is upgraded on load and resolves like a
    current one: lower-case type, [enabled] flag, [startAt] / [endAt] window
    and [applicablePlans]. *)
Example legacy_offer_resolves :
  let old := legacyOffer "old10" "percent" 10%Q true ["PLAN_60"]
               (Some (DateMs 1000)) (Some (DateMs 9000)) in
  validateOfferForPlan [old] 5000 "PLAN_60" (Some "OLD10") = Valid (upgradeOffer old)
  /\ type (upgradeOffer old) = Some "PERCENT"
  /\ active (upgradeOffer old) = Some true
  /\ description (upgradeOffer old) = Some "festive offer"
  /\ validateOfferForPlan [old] 9001 "PLAN_60" (Some "OLD10") = Invalid
  /\ validateOfferForPlan [old] 5000 "PLAN_90" (Some "OLD10") = Invalid
  /\ validateOffer [old] 5000 (Some "PLAN_60") None (Some " old10 ")
     = VOApplied "PLAN_60" {| base := 40000%Q; gst := 7200%Q; total := 47200%Q |}
         (upgradeOffer old)
         {| discount := 4720%Q; final := 42480%Q;
            text := Some (PercentOffVia (Some 10%Q) (Some "old10")) |}.
Proof. repeat split; vm_compute; reflexivity. Qed.

(** * Further properties of the code *)

(** ** base64url and the constant-time comparison *)

Lemma sextets_length (buffer : list byte) :
  length (sextets buffer) = ((4 * length buffer + 2) / 3)%nat.
Proof.
  induction buffer as [|x|x y|x y z l IH] using list_ind3.
  - reflexivity.
  - cbn [sextets]. bits_of x. reflexivity.
  - cbn [sextets]. bits_of x. bits_of y. reflexivity.
  - cbn [sextets]. bits_of x. bits_of y. bits_of z.
    cbn [length]. rewrite IH.
    replace (4 * S (S (S (length l))) + 2)%nat with (4 * length l + 2 + 4 * 3)%nat by lia.
    rewrite Nat.div_add by lia. lia.
Qed.

Lemma length_string_of_list_ascii (l : list ascii) :
  String.length (string_of_list_ascii l) = length l.
Proof. induction l as [|c l IH]; cbn; [ reflexivity | rewrite IH; reflexivity ]. Qed.

(** X1.  [base64url] writes a buffer of n bytes as ceil(4n/3) characters
    taken from letters, digits, "-" and "_" (no "+", "/" or "=" padding is
    left), and two buffers have the same text only when they are equal. *)
Theorem base64url_is_unpadded_url_safe_and_injective (b1 b2 : list byte) :
  String.length (base64url b1) = ((4 * length b1 + 2) / 3)%nat
  /\ stringAll urlSafeChar (base64url b1) = true
  /\ (base64url b1 = base64url b2 <-> b1 = b2).
Proof.
  split; [ | split ].
  - rewrite base64url_sextets, length_string_of_list_ascii, length_map.
    apply sextets_length.
  - apply base64url_urlSafe.
  - split; [ apply base64url_inj | intros ->; reflexivity ].
Qed.

(** X2.  [timingSafeEqualStr] is string equality: it answers true exactly on
    equal strings; strings of different lengths are answered false (they
    never reach [crypto.timingSafeEqual], which throws on them). *)
Theorem timingSafeEqualStr_is_string_equality (a b : string) :
  timingSafeEqualStr a b = String.eqb a b.
Proof.
  destruct (String.eqb a b) eqn:E.
  - apply String.eqb_eq in E. apply timingSafeEqualStr_true. exact E.
  - apply String.eqb_neq in E. destruct (timingSafeEqualStr a b) eqn:T; [ | reflexivity ].
    apply timingSafeEqualStr_true in T. contradiction.
Qed.

(** ** The contract store *)

Lemma fresh_later (t now : Z) (e : StoreEntry) : t <= now -> fresh now e -> fresh t e.
Proof. unfold fresh. intros Hle [Hz Hage]. split; [ exact Hz | lia ]. Qed.

Lemma purge_purge_lookup (t now : Z) (store : gmap string StoreEntry) (key : string) :
  t <= now ->
  purgeThankYouContracts now (purgeThankYouContracts t store) !! key
  = purgeThankYouContracts now store !! key.
Proof.
  intros Hle. rewrite !purge_lookup.
  destruct (store !! key) as [e|]; [ | reflexivity ].
  destruct (decide (fresh t e)) as [Ht|Ht]; [ reflexivity | ].
  destruct (decide (fresh now e)) as [Hn|Hn]; [ | reflexivity ].
  exfalso. apply Ht. exact (fresh_later t now e Hle Hn).
Qed.

Lemma makeThankYouKey_inj (o1 p1 o2 p2 : string) :
  noBar o1 = true -> noBar o2 = true ->
  makeThankYouKey o1 p1 = makeThankYouKey o2 p2 -> o1 = o2 /\ p1 = p2.
Proof.
  intros H1 H2 H. unfold makeThankYouKey in H.
  apply append_inj_l in H.
  change ("|payment_id=" +:+ ?r) with (String "|"%char ("payment_id=" +:+ r)) in H.
  apply append_bar_inj in H; [ | assumption | assumption ].
  destruct H as [-> H]. apply append_inj_l in H. auto.
Qed.

(** X3.  A contract stored at time [t] is what a lookup of the same order
    and payment id at time [now] returns exactly when [t] is not 0 and at
    most 30 minutes (1 800 000 ms) have passed; otherwise the lookup finds
    nothing.  A contract stored at timestamp 0 is never found. *)
Theorem stored_contract_is_found_for_thirty_minutes
    (t now : Z) (order_id payment_id : string) (c : Contract)
    (store : gmap string StoreEntry) :
  snd (getThankYouContract now order_id payment_id
         (storeThankYouContract t order_id payment_id c store))
  = if decide (t <> 0 /\ now - t <= 1800000) then Some c else None.
Proof.
  unfold getThankYouContract, storeThankYouContract. cbn [snd].
  rewrite purge_lookup, lookup_insert_eq.
  destruct (decide (fresh now {| storedAt := t; contract := c |})) as [Hf|Hf];
    unfold fresh, THANKYOU_CONTRACT_TTL_MS in Hf; cbn [storedAt] in Hf.
  - rewrite decide_True by (destruct Hf; split; [ assumption | lia ]). reflexivity.
  - rewrite decide_False; [ reflexivity | ].
    intros [Hz Hage]. apply Hf. split; [ assumption | lia ].
Qed.

(** X4.  Storing a contract does not disturb the others: for order ids that
    contain no "|" and a clock that does not run backwards, a lookup of a
    different (order id, payment id) pair gives the same answer after the
    store operation as before it. *)
Theorem storing_a_contract_leaves_other_keys_alone
    (t now : Z) (o p o' p' : string) (c : Contract) (store : gmap string StoreEntry) :
  noBar o = true -> noBar o' = true -> (o, p) <> (o', p') -> t <= now ->
  snd (getThankYouContract now o' p' (storeThankYouContract t o p c store))
  = snd (getThankYouContract now o' p' store).
Proof.
  intros Ho Ho' Hne Hle. unfold getThankYouContract, storeThankYouContract. cbn [snd].
  f_equal.
  assert (Hkey : makeThankYouKey o p <> makeThankYouKey o' p').
  { intros H. apply makeThankYouKey_inj in H; [ | assumption | assumption ].
    destruct H as [-> ->]. apply Hne. reflexivity. }
  rewrite purge_lookup, lookup_insert_ne by exact Hkey.
  rewrite <- purge_lookup. apply purge_purge_lookup. exact Hle.
Qed.

Lemma storing_a_contract_leaves_other_keys_alone_witness :
  let store := storeThankYouContract 1700000000000 "order_N1" "pay_N1" sampleContract ∅ in
  snd (getThankYouContract 1700000060000 "order_N1" "pay_N1"
         (storeThankYouContract 1700000050000 "order_N2" "pay_N2" sampleContract store))
  = snd (getThankYouContract 1700000060000 "order_N1" "pay_N1" store).
Proof.
  intros store.
  apply (storing_a_contract_leaves_other_keys_alone 1700000050000 1700000060000
           "order_N2" "pay_N2" "order_N1" "pay_N1" sampleContract store);
    [ reflexivity | reflexivity | discriminate | lia ].
Defined.

(** X5.  The store never keeps a stale contract: after a store or a lookup
    made at time [now] (not 0), every entry of the map is at most 30 minutes
    old; a lookup adds nothing to the map. *)
Theorem store_operations_leave_only_fresh_contracts
    (now : Z) (o p : string) (c : Contract) (store : gmap string StoreEntry) :
  now <> 0 ->
  map_Forall (fun _ e => storedAt e <> 0 /\ now - storedAt e <= 1800000)
    (storeThankYouContract now o p c store)
  /\ map_Forall (fun _ e => storedAt e <> 0 /\ now - storedAt e <= 1800000)
       (fst (getThankYouContract now o p store))
  /\ fst (getThankYouContract now o p store) ⊆ store.
Proof.
  intros Hnow.
  assert (Hpurged : map_Forall (fun _ e => storedAt e <> 0 /\ now - storedAt e <= 1800000)
                      (purgeThankYouContracts now store)).
  { intros k e Hk. rewrite purge_lookup in Hk.
    destruct (store !! k) as [e'|]; [ | discriminate ].
    destruct (decide (fresh now e')) as [Hf|Hf]; [ | discriminate ].
    inversion Hk; subst e'. exact Hf. }
  split; [ | split ].
  - unfold storeThankYouContract. apply map_Forall_insert_2; [ | exact Hpurged ].
    cbn [storedAt]. split; [ exact Hnow | lia ].
  - exact Hpurged.
  - unfold getThankYouContract, purgeThankYouContracts. cbn [fst].
    apply map_filter_subseteq.
Qed.

Lemma store_operations_leave_only_fresh_contracts_witness :
  1700000000000 <> 0
  /\ map_Forall (fun _ e => storedAt e <> 0 /\ 1700000000000 - storedAt e <= 1800000)
       (storeThankYouContract 1700000000000 "order_N1" "pay_N1" sampleContract ∅).
Proof.
  split; [ lia | ].
  apply (store_operations_leave_only_fresh_contracts 1700000000000 "order_N1" "pay_N1"
           sampleContract ∅).
  lia.
Defined.

(** ** The signed link, end to end *)

Lemma base64url_nonempty (buffer : list byte) : buffer <> [] -> base64url buffer <> "".
Proof.
  intros Hne H.
  assert (Hlen : String.length (base64url buffer) = 0%nat) by (rewrite H; reflexivity).
  rewrite base64url_sextets, length_string_of_list_ascii, length_map, sextets_length in Hlen.
  destruct buffer as [|x l]; [ congruence | ].
  cbn [length] in Hlen.
  assert (1 <= (4 * S (length l) + 2) / 3)%nat; [ | lia ].
  apply Nat.div_le_lower_bound; lia.
Qed.

Lemma eqb_nonempty (s : string) : s <> "" -> String.eqb s "" = false.
Proof. intros Hs. apply String.eqb_neq. exact Hs. Qed.

Section SignedLink.

Variable hmacSha256 : string -> string -> list byte.
Variable Number : string -> option Q.

(** X6.  The link that [/verify-payment] hands out works: when a contract
    was stored for an order and payment id at time [t] (not 0), the signature
    is the one [signThankYouV1] computes for these ids and a timestamp [ts],
    the HMAC is not empty, and the request arrives within 15 minutes of [ts]
    and within 30 minutes of [t], the retrieval route answers 200 with that
    contract, and leaves the store purged of stale entries. *)
Theorem signed_link_retrieves_the_stored_contract
    (secret : string) (t now : Z) (store : gmap string StoreEntry)
    (order_id payment_id ts : string) (c : Contract) (tsNum : Q) :
  secret <> "" -> order_id <> "" -> payment_id <> "" -> ts <> "" ->
  hmacSha256 secret (thankYouCanonical order_id payment_id ts) <> [] ->
  t <> 0 -> now - t <= 1800000 ->
  Number ts = Some tsNum ->
  let tsMs := if (13 <=? String.length ts)%nat then tsNum else (tsNum * 1000)%Q in
  (Qabs (inject_Z now - tsMs) <= inject_Z 900000)%Q ->
  forall sig, signThankYouV1 hmacSha256 (Some secret) order_id payment_id ts = Signature sig ->
  let stored := storeThankYouContract t order_id payment_id c store in
  thankYouContract hmacSha256 Number (Some secret) now stored
    {| q_version := None; q_order_id := Some order_id; q_payment_id := Some payment_id;
       q_ts := Some ts; q_sig := Some sig |}
  = ({| status := 200; body := ContractJson c |}, purgeThankYouContracts now stored).
Proof.
  intros Hsecret Ho Hp Hts Hmac Ht Hage Hnum tsMs Hwin sig Hsig stored.
  assert (Hsigv : sig = base64url (hmacSha256 secret (thankYouCanonical order_id payment_id ts))).
  { unfold signThankYouV1 in Hsig.
    rewrite (proj2 (falsyString_false secret) Hsecret), (orString_truthy secret "" Hsecret) in Hsig.
    inversion Hsig. reflexivity. }
  assert (Hsigne : sig <> "") by (rewrite Hsigv; apply base64url_nonempty; exact Hmac).
  unfold thankYouContract. cbn [q_version q_order_id q_payment_id q_ts q_sig].
  rewrite (proj2 (falsyString_false secret) Hsecret).
  rewrite !orString_truthy by assumption.
  rewrite (eqb_nonempty order_id Ho), (eqb_nonempty payment_id Hp),
    (eqb_nonempty ts Hts), (eqb_nonempty sig Hsigne).
  cbn [orString String.eqb Ascii.eqb Bool.eqb negb orb]. rewrite Hnum. fold tsMs.
  apply Qltb_ge in Hwin. change (15 * 60 * 1000) with 900000. rewrite Hwin.
  rewrite Hsig. rewrite (proj2 (timingSafeEqualStr_true sig sig) eq_refl). cbn [negb].
  unfold getThankYouContract, stored, storeThankYouContract.
  rewrite purge_lookup, lookup_insert_eq.
  rewrite decide_True; [ reflexivity | ].
  unfold fresh, THANKYOU_CONTRACT_TTL_MS. cbn [storedAt]. split; [ exact Ht | lia ].
Qed.

(** X7.  The retrieval route returns a contract only for a valid, fresh
    link: a response with status 200 means the secret is configured, the
    four parameters are present, the signature equals the one
    [signThankYouV1] computes for them, the timestamp is within 15 minutes,
    and the body is the contract the store holds under these ids, stored at
    most 30 minutes ago; the store is left purged and otherwise unchanged. *)
Theorem contract_is_returned_only_for_a_valid_fresh_link
    (secret : option string) (now : Z) (store store' : gmap string StoreEntry)
    (query : Query) (resp : Response) :
  thankYouContract hmacSha256 Number secret now store query = (resp, store') ->
  status resp = 200 ->
  exists (order_id payment_id ts sig : string) (tsNum : Q) (e : StoreEntry),
    falsyString secret = false
    /\ q_order_id query = Some order_id /\ q_payment_id query = Some payment_id
    /\ q_ts query = Some ts /\ q_sig query = Some sig
    /\ signThankYouV1 hmacSha256 secret order_id payment_id ts = Signature sig
    /\ Number ts = Some tsNum
    /\ (Qabs (inject_Z now
              - (if (13 <=? String.length ts)%nat then tsNum else (tsNum * 1000)%Q))
        <= inject_Z 900000)%Q
    /\ store !! makeThankYouKey order_id payment_id = Some e
    /\ storedAt e <> 0 /\ now - storedAt e <= 1800000
    /\ body resp = ContractJson (contract e)
    /\ store' = purgeThankYouContracts now store.
Proof.
  unfold thankYouContract. intros H Hst.
  destruct (falsyString secret) eqn:Hsec;
    [ inversion H; subst resp; discriminate Hst | ].
  assert (Hq : forall x : option string, String.eqb (orString x "") "" = false ->
               x = Some (orString x "")).
  { intros [[|a s]|] Hx; cbn in Hx; try discriminate; reflexivity. }
  destruct (negb (String.eqb (orString (q_version query) "v1") "v1")
            || String.eqb (orString (q_order_id query) "") ""
            || String.eqb (orString (q_payment_id query) "") ""
            || String.eqb (orString (q_ts query) "") ""
            || String.eqb (orString (q_sig query) "") "") eqn:Hparams;
    [ inversion H; subst resp; discriminate Hst | ].
  repeat (apply orb_false_iff in Hparams; destruct Hparams as [Hparams ?]).
  set (o := orString (q_order_id query) "") in *.
  set (p := orString (q_payment_id query) "") in *.
  set (ts := orString (q_ts query) "") in *.
  set (sig := orString (q_sig query) "") in *.
  destruct (Number ts) as [tsNum|] eqn:Hnum;
    [ | inversion H; subst resp; discriminate Hst ].
  destruct (Qltb (inject_Z (15 * 60 * 1000))
              (Qabs (inject_Z now
                     - (if (13 <=? String.length ts)%nat then tsNum else (tsNum * 1000)%Q))))
    eqn:Hage; [ inversion H; subst resp; discriminate Hst | ].
  destruct (signThankYouV1 hmacSha256 secret o p ts) as [m|expected] eqn:Hsign;
    [ inversion H; subst resp; discriminate Hst | ].
  destruct (timingSafeEqualStr expected sig) eqn:Heq; cbn [negb] in H;
    [ | inversion H; subst resp; discriminate Hst ].
  pose proof (proj1 (timingSafeEqualStr_true expected sig) Heq) as Hsame.
  unfold getThankYouContract in H. rewrite purge_lookup in H.
  destruct (store !! makeThankYouKey o p) as [e|] eqn:Hlook;
    [ | inversion H; subst resp; discriminate Hst ].
  destruct (decide (fresh now e)) as [Hf|Hf]; cbn in H;
    [ | inversion H; subst resp; discriminate Hst ].
  inversion H; subst resp store'.
  exists o, p, ts, sig, tsNum, e.
  destruct Hf as [Hz Hold]. unfold THANKYOU_CONTRACT_TTL_MS in Hold.
  apply Qltb_ge in Hage. change (15 * 60 * 1000) with 900000 in Hage.
  rewrite <- Hsame.
  repeat split; try assumption; try (apply Hq; assumption); try lia.
  - rewrite Hsame. apply Hq. assumption.
Qed.

End SignedLink.

Lemma signed_link_retrieves_the_stored_contract_witness :
  let ts := "1700000001000" in
  let sig := base64url (keyedDigest "s3cret" (thankYouCanonical "order_N1" "pay_N1" ts)) in
  let stored := storeThankYouContract 1700000000000 "order_N1" "pay_N1" sampleContract ∅ in
  thankYouContract keyedDigest decimalNumber (Some "s3cret") 1700000600000 stored
    {| q_version := None; q_order_id := Some "order_N1"; q_payment_id := Some "pay_N1";
       q_ts := Some ts; q_sig := Some sig |}
  = ({| status := 200; body := ContractJson sampleContract |},
     purgeThankYouContracts 1700000600000 stored).
Proof.
  intros ts sig stored.
  apply (signed_link_retrieves_the_stored_contract keyedDigest decimalNumber "s3cret"
           1700000000000 1700000600000 ∅ "order_N1" "pay_N1" ts sampleContract
           1700000001000%Q);
    try discriminate; try reflexivity; try lia.
Defined.

Lemma contract_is_returned_only_for_a_valid_fresh_link_witness :
  let ts := "1700000001000" in
  let sig := base64url (keyedDigest "s3cret" (thankYouCanonical "order_N1" "pay_N1" ts)) in
  let stored := storeThankYouContract 1700000000000 "order_N1" "pay_N1" sampleContract ∅ in
  let query := {| q_version := None; q_order_id := Some "order_N1";
                  q_payment_id := Some "pay_N1"; q_ts := Some ts; q_sig := Some sig |} in
  status (fst (thankYouContract keyedDigest decimalNumber (Some "s3cret") 1700000600000
                 stored query)) = 200
  /\ exists (order_id payment_id ts' sig' : string) (tsNum : Q) (e : StoreEntry),
       falsyString (Some "s3cret") = false
       /\ q_order_id query = Some order_id /\ q_payment_id query = Some payment_id
       /\ q_ts query = Some ts' /\ q_sig query = Some sig'
       /\ signThankYouV1 keyedDigest (Some "s3cret") order_id payment_id ts' = Signature sig'
       /\ decimalNumber ts' = Some tsNum
       /\ (Qabs (inject_Z 1700000600000
                 - (if (13 <=? String.length ts')%nat then tsNum else (tsNum * 1000)%Q))
           <= inject_Z 900000)%Q
       /\ stored !! makeThankYouKey order_id payment_id = Some e
       /\ storedAt e <> 0 /\ 1700000600000 - storedAt e <= 1800000
       /\ body (fst (thankYouContract keyedDigest decimalNumber (Some "s3cret")
                       1700000600000 stored query)) = ContractJson (contract e)
       /\ snd (thankYouContract keyedDigest decimalNumber (Some "s3cret") 1700000600000
                 stored query) = purgeThankYouContracts 1700000600000 stored.
Proof.
  intros ts sig stored query.
  assert (Hst : status (fst (thankYouContract keyedDigest decimalNumber (Some "s3cret")
                               1700000600000 stored query)) = 200)
    by (vm_compute; reflexivity).
  split; [ exact Hst | ].
  exact (contract_is_returned_only_for_a_valid_fresh_link keyedDigest decimalNumber
           (Some "s3cret") 1700000600000 stored _ query _
           (surjective_pairing _) Hst).
Defined.

(** ** Loading offers.json *)

Lemma toUpperCase_cons (a : ascii) (s : string) :
  toUpperCase (String a s) = String (toUpperChar a) (toUpperCase s).
Proof. reflexivity. Qed.

Lemma upgradeOffer_idem (o : Offer) : upgradeOffer (upgradeOffer o) = upgradeOffer o.
Proof.
  destruct o as [c t a d act en ap ul us v apl fb fc sa ea n].
  unfold upgradeOffer.
  cbn [code type amount description active enabled appliesTo usageLimit used validity
       applicablePlans flatBillingTypes flatCountries startAt endAt notes].
  f_equal.
  - destruct t as [[|x t]|]; cbn [falsyString option_map]; [ reflexivity | | reflexivity ].
    rewrite toUpperCase_cons. cbn [falsyString option_map].
    rewrite <- toUpperCase_cons, toUpperCase_idem. reflexivity.
  - destruct (falsyString d) eqn:Hd; destruct (falsyString n) eqn:Hn;
      cbn [andb negb]; rewrite ?Hd, ?Hn; reflexivity.
  - destruct act; [ reflexivity | destruct en; reflexivity ].
  - destruct ap as [[ps bs cs]|]; reflexivity.
  - destruct us; reflexivity.
  - destruct v; reflexivity.
Qed.

Lemma loadOffers_idem (file : list Offer) : loadOffers (loadOffers file) = loadOffers file.
Proof.
  unfold loadOffers. rewrite map_map. apply map_ext. intros o. apply upgradeOffer_idem.
Qed.

(** X8.  [loadOffers] brings every record to the current shape: [active],
    [validity], [used] and an [appliesTo] with three arrays are defined on
    each loaded record, whatever the file held.  Loading is idempotent, so a
    file that an admin route has saved (the loaded list) loads to itself and
    resolves every coupon exactly as before. *)
Theorem loaded_offers_have_the_current_shape (file : list Offer) :
  Forall (fun o => (exists a, active o = Some a) /\ (exists v, validity o = Some v)
                   /\ (exists u, used o = Some u)
                   /\ (exists ps bs cs,
                         appliesTo o = Some {| plans := Some ps; billingTypes := Some bs;
                                               countries := Some cs |}))
    (loadOffers file)
  /\ loadOffers (loadOffers file) = loadOffers file
  /\ (forall now planId coupon,
        validateOfferForPlan (loadOffers file) now planId coupon
        = validateOfferForPlan file now planId coupon).
Proof.
  split; [ | split ].
  - unfold loadOffers. induction file as [|o file IH]; cbn [map]; constructor;
      [ | exact IH ].
    destruct o as [c t a d act en ap ul us v apl fb fc sa ea n].
    unfold upgradeOffer.
    cbn [code type amount description active enabled appliesTo usageLimit used validity
         applicablePlans flatBillingTypes flatCountries startAt endAt notes].
    repeat split.
    + destruct act; [ | destruct en ]; eexists; reflexivity.
    + destruct v; eexists; reflexivity.
    + destruct us; eexists; reflexivity.
    + destruct ap as [[ps bs cs]|]; do 3 eexists; reflexivity.
  - apply loadOffers_idem.
  - intros now planId coupon. unfold validateOfferForPlan.
    rewrite loadOffers_idem. reflexivity.
Qed.

(** ** Usage limits *)

Lemma find_map_pair {A B : Type} (f : B -> bool) (g h : A -> B) (l : list A) :
  (forall x, f (g x) = f (h x)) ->
  match find f (map g l), find f (map h l) with
  | Some a, Some b => exists x, a = g x /\ b = h x
  | None, None => True
  | _, _ => False
  end.
Proof.
  intros Hf. induction l as [|x l IH]; cbn [map find]; [ exact I | ].
  rewrite Hf. destruct (f (h x)); [ exists x; auto | exact IH ].
Qed.

Lemma passesGates_setUsage (now : Z) (planId : string) (u : option Q * option Q) (o : Offer) :
  passesGates now planId (setUsage u o) = passesGates now planId o.
Proof. reflexivity. Qed.

(** X9.  Usage limits are not enforced.  Give the stored records any other
    [usageLimit] and [used] values: every coupon resolves for the same plans
    and times as before, to the same record up to these two fields, and
    [applyOffer] computes the same discount from it.  An offer whose use
    count has reached its limit is applied like any other. *)
Theorem usage_limits_are_not_enforced
    (u : Offer -> option Q * option Q) (file : list Offer) (now : Z)
    (planId : string) (coupon : option string) :
  match validateOfferForPlan file now planId coupon,
        validateOfferForPlan (map (fun o => setUsage (u o) o) file) now planId coupon with
  | Invalid, Invalid => True
  | Valid o, Valid o' =>
      (exists l, o' = setUsage l o)
      /\ forall totalAmount, applyOffer totalAmount (Some o') = applyOffer totalAmount (Some o)
  | _, _ => False
  end.
Proof.
  unfold validateOfferForPlan.
  destruct (falsyString coupon); [ exact I | ].
  unfold loadOffers. rewrite map_map.
  set (c := toUpperCase (trim (orString coupon ""))).
  pose proof (find_map_pair (codeMatches c) upgradeOffer
                (fun o => upgradeOffer (setUsage (u o) o)) file
                (fun x => eq_refl)) as Hfind.
  destruct file as [|o0 file0]; [ exact I | ].
  set (file := o0 :: file0) in *.
  assert (H1 : map upgradeOffer file
               = upgradeOffer o0 :: map upgradeOffer file0) by reflexivity.
  assert (H2 : map (fun o => upgradeOffer (setUsage (u o) o)) file
               = upgradeOffer (setUsage (u o0) o0)
                   :: map (fun o => upgradeOffer (setUsage (u o) o)) file0) by reflexivity.
  destruct (map upgradeOffer file) as [|a1 l1]; [ discriminate H1 | ].
  destruct (map (fun o => upgradeOffer (setUsage (u o) o)) file) as [|a2 l2];
    [ discriminate H2 | ].
  destruct (find (codeMatches c) (a1 :: l1)) as [a|];
    destruct (find (codeMatches c) (a2 :: l2)) as [b|]; try contradiction; [ | exact I ].
  destruct Hfind as (x & -> & ->).
  assert (Hup : upgradeOffer (setUsage (u x) x)
                = setUsage (fst (u x), match snd (u x) with
                                       | Some n => Some n
                                       | None => Some 0%Q
                                       end) (upgradeOffer x)).
  { destruct (u x) as [l [n|]]; reflexivity. }
  rewrite Hup, !checkOffer_passesGates, passesGates_setUsage.
  destruct (passesGates now planId (upgradeOffer x)); [ | exact I ].
  split; [ eexists; reflexivity | intros totalAmount; reflexivity ].
Qed.

(** ** Billing types of a plan list *)

Lemma includes_In (arr : list string) (x : string) : includes arr x = true <-> In x arr.
Proof.
  unfold includes. rewrite existsb_exists. split.
  - intros (y & Hin & Hy). apply String.eqb_eq in Hy. subst y. exact Hin.
  - intros Hin. exists x. split; [ exact Hin | apply String.eqb_refl ].
Qed.

Lemma addedToSet_In (seen xs : list string) (x : string) :
  In x (addedToSet seen xs) <-> In x xs /\ ~ In x seen.
Proof.
  revert seen. induction xs as [|a xs IH]; intros seen; cbn [addedToSet In].
  - tauto.
  - destruct (includes seen a) eqn:Ha.
    + apply includes_In in Ha. rewrite IH. split.
      * intros [H1 H2]. auto.
      * intros [[-> | H1] H2]; [ contradiction | auto ].
    + assert (Hna : ~ In a seen).
      { intros H. apply includes_In in H. congruence. }
      cbn [In]. rewrite IH. cbn [In]. split.
      * intros [<- | [H1 H2]]; [ auto | ]. split; [ auto | tauto ].
      * intros [[<- | H1] H2]; [ auto | ].
        destruct (String.eqb a x) eqn:E.
        -- apply String.eqb_eq in E. auto.
        -- apply String.eqb_neq in E. right. split; [ exact H1 | ].
           intros [H | H]; [ contradiction | contradiction ].
Qed.

Lemma addedToSet_all_seen (seen xs : list string) :
  (forall x, In x xs -> In x seen) -> addedToSet seen xs = [].
Proof.
  induction xs as [|a xs IH]; intros H; cbn [addedToSet]; [ reflexivity | ].
  rewrite (proj2 (includes_In seen a)) by (apply H; left; reflexivity).
  apply IH. intros x Hx. apply H. right. exact Hx.
Qed.

Lemma mapDefined_In {A B : Type} (f : A -> option B) (xs : list A) (y : B) :
  In y (mapDefined f xs) <-> exists x, In x xs /\ f x = Some y.
Proof.
  unfold mapDefined. rewrite in_flat_map. split.
  - intros (x & Hx & Hy). exists x. split; [ exact Hx | ].
    destruct (f x) as [z|]; [ | contradiction ].
    destruct Hy as [-> | []]. reflexivity.
  - intros (x & Hx & Hy). exists x. split; [ exact Hx | ].
    rewrite Hy. left. reflexivity.
Qed.

(** What [PLANS_CONFIG.find] returns: the consultation plan, one of the five
    recurring plans, or nothing. *)
Lemma findPlan_cases (id : string) :
  (id = "ENT_CONSULTATION"
   /\ exists p, findPlan id = Some p /\ isConsultation p = true)
  \/ (includes ["SP_STARTER"; "SP_PRO"; "ENT_60"; "ENT_90"; "ENT_120"] id = true
      /\ id <> "ENT_CONSULTATION"
      /\ exists p, findPlan id = Some p /\ isConsultation p = false
                   /\ allowedBilling p = ["monthly"; "yearly"])
  \/ (includes ["SP_STARTER"; "SP_PRO"; "ENT_60"; "ENT_90"; "ENT_120"] id = false
      /\ id <> "ENT_CONSULTATION" /\ findPlan id = None).
Proof.
  unfold findPlan, PLANS_CONFIG, includes.
  cbn [find existsb plan_id].
  rewrite !(String.eqb_sym id).
  destruct (String.eqb "SP_STARTER" id) eqn:E1.
  { apply String.eqb_eq in E1. subst id. right. left.
    split; [ reflexivity | split; [ discriminate | eexists; repeat split ] ]. }
  destruct (String.eqb "SP_PRO" id) eqn:E2.
  { apply String.eqb_eq in E2. subst id. right. left.
    split; [ reflexivity | split; [ discriminate | eexists; repeat split ] ]. }
  destruct (String.eqb "ENT_60" id) eqn:E3.
  { apply String.eqb_eq in E3. subst id. right. left.
    split; [ reflexivity | split; [ discriminate | eexists; repeat split ] ]. }
  destruct (String.eqb "ENT_90" id) eqn:E4.
  { apply String.eqb_eq in E4. subst id. right. left.
    split; [ reflexivity | split; [ discriminate | eexists; repeat split ] ]. }
  destruct (String.eqb "ENT_120" id) eqn:E5.
  { apply String.eqb_eq in E5. subst id. right. left.
    split; [ reflexivity | split; [ discriminate | eexists; repeat split ] ]. }
  destruct (String.eqb "ENT_CONSULTATION" id) eqn:E6.
  { apply String.eqb_eq in E6. subst id. left.
    split; [ reflexivity | eexists; repeat split ]. }
  right. right. split; [ reflexivity | split; [ | reflexivity ] ].
  intros ->. cbn in E6. discriminate E6.
Qed.

(** X10.  [deriveBillingTypesFromPlans] has three outcomes.  A list that
    names the consultation plan gives ["one_time"], whatever else it names;
    otherwise a list that names one of the five recurring plans gives
    ["monthly", "yearly"]; a list that names no plan of [PLANS_CONFIG]
    (the empty list included) gives [].  Unknown ids, repetitions and the
    order of the ids make no difference. *)
Theorem deriveBillingTypesFromPlans_has_three_outcomes (planIds : list string) :
  deriveBillingTypesFromPlans planIds
  = if includes planIds "ENT_CONSULTATION" then ["one_time"]
    else if existsb (includes ["SP_STARTER"; "SP_PRO"; "ENT_60"; "ENT_90"; "ENT_120"]) planIds
         then ["monthly"; "yearly"]
         else [].
Proof.
  unfold deriveBillingTypesFromPlans.
  set (sel := mapDefined findPlan (arrayFromSet planIds)).
  assert (Hsel : forall p, In p sel <-> exists id, In id planIds /\ findPlan id = Some p).
  { intros p. unfold sel. rewrite mapDefined_In. unfold arrayFromSet. split.
    - intros (id & Hid & Hp). apply addedToSet_In in Hid. exists id. tauto.
    - intros (id & Hid & Hp). exists id. split; [ | exact Hp ].
      apply addedToSet_In. split; [ exact Hid | intros [] ]. }
  destruct (includes planIds "ENT_CONSULTATION") eqn:Hc.
  - apply includes_In in Hc.
    destruct (findPlan_cases "ENT_CONSULTATION") as [(_ & p & Hp & Hcons) | [H | H]];
      [ | destruct H as (_ & Hne & _); congruence
        | destruct H as (_ & Hne & _); congruence ].
    assert (Hin : In p sel) by (apply Hsel; exists "ENT_CONSULTATION"; auto).
    assert (Hex : existsb isConsultation sel = true)
      by (apply existsb_exists; exists p; auto).
    destruct sel as [|q sel']; [ destruct Hin | ].
    rewrite Hex. reflexivity.
  - assert (Hnc : ~ In "ENT_CONSULTATION" planIds).
    { intros H. apply includes_In in H. congruence. }
    assert (Hrec : forall p, In p sel ->
                   isConsultation p = false /\ allowedBilling p = ["monthly"; "yearly"]).
    { intros p Hp. apply Hsel in Hp. destruct Hp as (id & Hid & Hp).
      destruct (findPlan_cases id) as [(-> & _) | [(_ & _ & q & Hq & Hq1 & Hq2) | (_ & _ & Hn)]].
      - contradiction.
      - rewrite Hq in Hp. inversion Hp; subst q. auto.
      - congruence. }
    destruct (existsb (includes ["SP_STARTER"; "SP_PRO"; "ENT_60"; "ENT_90"; "ENT_120"])
                planIds) eqn:Hk.
    + apply existsb_exists in Hk. destruct Hk as (id & Hid & Hknown).
      destruct (findPlan_cases id) as [(-> & _) | [(_ & _ & q & Hq & _) | (Hn & _)]];
        [ contradiction | | congruence ].
      assert (Hin : In q sel) by (apply Hsel; exists id; auto).
      destruct sel as [|p sel'] eqn:Hs; [ destruct Hin | ].
      assert (Hex : existsb isConsultation (p :: sel') = false).
      { destruct (existsb isConsultation (p :: sel')) eqn:E; [ | reflexivity ].
        apply existsb_exists in E. destruct E as (r & Hr & Hr1).
        destruct (Hrec r Hr) as [Hr2 _]. congruence. }
      rewrite Hex. cbn [flat_map].
      rewrite (proj2 (Hrec p (or_introl eq_refl))).
      unfold arrayFromSet. cbn [app addedToSet includes existsb String.eqb Ascii.eqb Bool.eqb orb].
      rewrite addedToSet_all_seen; [ reflexivity | ].
      intros x Hx. apply in_flat_map in Hx. destruct Hx as (r & Hr & Hx).
      rewrite (proj2 (Hrec r (or_intror Hr))) in Hx. cbn [In] in Hx |- *. tauto.
    + destruct sel as [|p sel'] eqn:Hs; [ reflexivity | exfalso ].
      destruct (proj1 (Hsel p) (or_introl eq_refl)) as (id & Hid & Hp).
      destruct (findPlan_cases id) as [(-> & _) | [(Hknown & _) | (_ & _ & Hn)]];
        [ contradiction | | congruence ].
      assert (existsb (includes ["SP_STARTER"; "SP_PRO"; "ENT_60"; "ENT_90"; "ENT_120"])
                planIds = true) by (apply existsb_exists; exists id; auto).
      congruence.
Qed.

(** ** Lists updated by index *)

Lemma findIndex_Some {A : Type} (f : A -> bool) (l : list A) (i : nat) :
  findIndex f l = Some i ->
  exists pre x post,
    l = pre ++ x :: post /\ Forall (fun y => f y = false) pre /\ f x = true
    /\ nth_error l i = Some x /\ firstn i l = pre /\ skipn (S i) l = post.
Proof.
  revert i. induction l as [|a l IH]; intros i H; cbn [findIndex] in H; [ discriminate | ].
  destruct (f a) eqn:Ha.
  - inversion H; subst i. exists [], a, l. repeat split; auto.
  - destruct (findIndex f l) as [j|]; [ | discriminate ].
    cbn [option_map] in H. inversion H; subst i.
    destruct (IH j eq_refl) as (pre & x & post & Hl & Hpre & Hx & Hnth & Hfirst & Hskip).
    exists (a :: pre), x, post. cbn [nth_error firstn].
    repeat split; auto.
    + rewrite Hl at 1. reflexivity.
    + rewrite Hfirst. reflexivity.
Qed.

Lemma findIndex_None {A : Type} (f : A -> bool) (l : list A) :
  findIndex f l = None -> Forall (fun y => f y = false) l.
Proof.
  induction l as [|a l IH]; intros H; cbn [findIndex] in H; [ constructor | ].
  destruct (f a) eqn:Ha; [ discriminate | ].
  destruct (findIndex f l); [ discriminate | ].
  constructor; [ exact Ha | apply IH; reflexivity ].
Qed.


(** ** Codes in files the admin API writes *)

Lemma upperCode_upgradeOffer (o : Offer) : upperCode (upgradeOffer o) <-> upperCode o.
Proof. reflexivity. Qed.

Lemma orString_Some (s : string) : orString (Some s) "" = s.
Proof. destruct s; reflexivity. Qed.

(** For a stored code in upper case, the strict comparison of the admin
    routes and the comparison of [validateOfferForPlan] agree. *)
Lemma codeMatches_codeIs (c : string) (o : Offer) :
  c <> "" -> upperCode o -> codeMatches c o = codeIs c o.
Proof.
  intros Hc Hup. unfold codeMatches, codeIs. unfold upperCode in Hup. rewrite Hup.
  destruct (code o) as [s|]; [ rewrite orString_Some; reflexivity | ].
  cbn [orString]. apply String.eqb_neq. congruence.
Qed.

Lemma loadOffers_upperCode (file : list Offer) :
  Forall upperCode file -> Forall upperCode (loadOffers file).
Proof.
  intros H. unfold loadOffers. induction H as [|o l Ho _ IH]; cbn [map]; constructor;
    [ exact Ho | exact IH ].
Qed.

Lemma Forall_app_l {A : Type} (P : A -> Prop) (l1 l2 : list A) :
  Forall P (l1 ++ l2) -> Forall P l1.
Proof.
  induction l1 as [|a l1 IH]; cbn [app]; intros H; [ constructor | ].
  inversion H; subst. constructor; auto.
Qed.

(** In a list of upper-case codes, the record the admin routes address is
    the record a coupon with that code resolves to. *)
Lemma find_after_replace (c : string) (pre post : list Offer) (y : Offer) :
  c <> "" -> Forall upperCode pre -> Forall (fun o => codeIs c o = false) pre ->
  codeMatches c y = true ->
  find (codeMatches c) (loadOffers (pre ++ y :: post)) = Some (upgradeOffer y).
Proof.
  intros Hc Hup Hpre Hy. unfold loadOffers. rewrite map_app. cbn [map].
  apply find_first_match; [ | exact Hy ].
  induction Hpre as [|o pre Ho _ IH]; cbn [map]; constructor.
  - rewrite codeMatches_upgradeOffer, codeMatches_codeIs;
      [ exact Ho | exact Hc | inversion Hup; assumption ].
  - apply IH. inversion Hup; assumption.
Qed.

Lemma normalizedCode_nonempty (coupon : string) : normalizedCode coupon <> "" -> coupon <> "".
Proof. intros H ->. apply H. reflexivity. Qed.

Lemma normalizedCode_upper (c : string) : toUpperCase (normalizedCode c) = normalizedCode c.
Proof. unfold normalizedCode. apply toUpperCase_idem. Qed.

(** ** POST /api/admin/offers *)

Lemma cleanStrings_trimmed (xs : list (option string)) :
  Forall (fun s => s <> "" /\ trim s = s) (cleanStrings xs).
Proof.
  unfold cleanStrings. induction xs as [|x xs IH]; cbn [map List.filter]; [ constructor | ].
  destruct (String.eqb (trim (orString x "")) "") eqn:E; cbn [negb]; [ exact IH | ].
  constructor; [ | exact IH ].
  split; [ apply String.eqb_neq; exact E | apply trim_idem ].
Qed.

Lemma includes_percent_fixed (t : string) :
  includes ["PERCENT"; "FIXED"] t = true -> t = "PERCENT" \/ t = "FIXED".
Proof.
  intros H. apply includes_In in H. cbn [In] in H.
  destruct H as [<- | [<- | []]]; auto.
Qed.

Lemma Qpositive_test (a : Q) : Qeq_bool a 0 || Qle_bool a 0 = false -> (0 < a)%Q.
Proof.
  intros H. apply orb_false_iff in H. destruct H as [_ H].
  apply Qnot_le_lt. intros Hle. apply Qle_bool_iff in Hle. congruence.
Qed.

(** What an accepted POST did. *)
Lemma postAdminOffer_accepted (file : list Offer) (body : OfferBody)
    (r : option Offer) (file' : list Offer) :
  postAdminOffer file body = (AdminOk r, file') ->
  exists (c t : string) (a : Q) (ps cs : list string),
    body_code body = Some c /\ c <> ""
    /\ (toUpperCase (trim t) = "PERCENT" \/ toUpperCase (trim t) = "FIXED")
    /\ (0 < a)%Q /\ ps <> []
    /\ Forall (fun s => s <> "" /\ trim s = s) ps
    /\ Forall (fun s => s <> "" /\ trim s = s) cs
    /\ r = Some (offerPayload (normalizedCode c) (toUpperCase (trim t)) a body ps
                   (deriveBillingTypesFromPlans ps) cs)
    /\ file' = upsertOffer (normalizedCode c)
                 (offerPayload (normalizedCode c) (toUpperCase (trim t)) a body ps
                    (deriveBillingTypesFromPlans ps) cs)
                 (loadOffers file).
Proof.
  unfold postAdminOffer. intros H.
  destruct (body_code body) as [c|] eqn:Hcode; [ | discriminate H ].
  destruct (falsyString (Some c)) eqn:Hc; [ discriminate H | ].
  destruct (body_type body) as [t|] eqn:Htype; [ | discriminate H ].
  destruct (falsyString (Some t)) eqn:Ht; [ discriminate H | ].
  destruct (body_amount body) as [[a|]|] eqn:Ham; cbn [orb] in H;
    [ | discriminate H | discriminate H ].
  destruct (Qeq_bool a 0 || Qle_bool a 0) eqn:Hpos; [ discriminate H | ].
  apply falsyString_false in Hc. apply falsyString_false in Ht.
  rewrite !orString_Some in H.
  destruct (includes ["PERCENT"; "FIXED"] (toUpperCase (trim t))) eqn:Hty;
    cbn [negb] in H; [ | discriminate H ].
  set (ps := match body_plans body with Some ps => cleanStrings ps | None => [] end) in *.
  set (cs := match body_countries body with Some cs => cleanStrings cs | None => [] end) in *.
  destruct ps as [|p0 ps0] eqn:Hps; [ discriminate H | ].
  inversion H; subst r file'.
  exists c, t, a, (p0 :: ps0), cs.
  assert (Hclean : forall x : option (list (option string)),
            Forall (fun s => s <> "" /\ trim s = s)
              (match x with Some l => cleanStrings l | None => [] end)).
  { intros [l|]; [ apply cleanStrings_trimmed | constructor ]. }
  repeat split; try reflexivity; try assumption.
  - apply includes_percent_fixed. exact Hty.
  - apply Qpositive_test. exact Hpos.
  - discriminate.
  - rewrite <- Hps. apply Hclean.
  - apply Hclean.
Qed.

Lemma postAdminOffer_rejected (file : list Offer) (body : OfferBody)
    (st : Z) (e : string) (file' : list Offer) :
  postAdminOffer file body = (AdminError st e, file') -> st = 400 /\ file' = file.
Proof.
  unfold postAdminOffer. intros H.
  repeat match type of H with
         | (if ?b then _ else _) = _ => destruct b
         | match ?x with _ => _ end = _ => destruct x
         end;
    inversion H; auto.
Qed.

Lemma upsertOffer_shape (c : string) (payload : Offer) (offers : list Offer) :
  (exists pre x post,
      offers = pre ++ x :: post /\ Forall (fun y => codeIs c y = false) pre
      /\ codeIs c x = true
      /\ upsertOffer c payload offers = pre ++ mergeOffer x payload :: post)
  \/ (Forall (fun y => codeIs c y = false) offers
      /\ upsertOffer c payload offers = offers ++ [payload]).
Proof.
  unfold upsertOffer. destruct (findIndex (codeIs c) offers) as [idx|] eqn:Hidx.
  - left. apply findIndex_Some in Hidx.
    destruct Hidx as (pre & x & post & Hl & Hpre & Hx & Hnth & Hfirst & Hskip).
    exists pre, x, post. rewrite Hnth, Hfirst, Hskip. auto.
  - right. split; [ apply findIndex_None; exact Hidx | reflexivity ].
Qed.


(** X12.  A coupon resolves to the offer that was posted for its code.  In
    a file whose stored codes are in upper case, after an accepted POST every
    coupon that trims and upper-cases to the posted (non-empty) code resolves
    exactly when the posted offer is active, inside its validity window and
    lists the plan; the resolved record carries the posted code, type and
    amount and a use count of 0 (an update resets it), and [applyOffer]
    computes the discount of the posted offer. *)
Theorem posted_offer_is_the_one_its_coupon_resolves_to
    (file file' : list Offer) (body : OfferBody) (payload : Offer)
    (now : Z) (planId coupon : string) :
  Forall upperCode file ->
  postAdminOffer file body = (AdminOk (Some payload), file') ->
  code payload = Some (normalizedCode coupon) -> normalizedCode coupon <> "" ->
  match validateOfferForPlan file' now planId (Some coupon) with
  | Valid o =>
      passesGates now planId payload = true
      /\ code o = code payload /\ type o = type payload /\ amount o = amount payload
      /\ used o = Some 0%Q
      /\ forall totalAmount,
           applyOffer totalAmount (Some o) = applyOffer totalAmount (Some payload)
  | Invalid => passesGates now planId payload = false
  end.
Proof.
  intros Hup Hpost Hcode Hne.
  destruct (postAdminOffer_accepted file body _ file' Hpost)
    as (c & t & a & ps & cs & Hc & Hcne & Hty & Ha & Hps & _ & _ & Hpay & Hfile).
  injection Hpay as Hpayload.
  rewrite <- Hpayload in Hfile.
  assert (Hcc : normalizedCode c = normalizedCode coupon).
  { rewrite Hpayload in Hcode. cbn [offerPayload code] in Hcode. congruence. }
  rewrite Hcc in Hfile.
  rewrite validateOfferForPlan_find by (apply normalizedCode_nonempty; exact Hne).
  fold (normalizedCode coupon).
  assert (Hmatch : forall y, code y = code payload ->
                             codeMatches (normalizedCode coupon) y = true).
  { intros y Hy. unfold codeMatches. rewrite Hy, Hcode, orString_Some, normalizedCode_upper.
    apply String.eqb_refl. }
  assert (Hloaded : Forall upperCode (loadOffers file)) by (apply loadOffers_upperCode; exact Hup).
  assert (Hfound : exists y,
             find (codeMatches (normalizedCode coupon)) (loadOffers file') = Some (upgradeOffer y)
             /\ code y = code payload /\ type y = type payload /\ amount y = amount payload
             /\ used y = used payload /\ active y = active payload
             /\ validity y = validity payload /\ appliesTo y = appliesTo payload).
  { destruct (upsertOffer_shape (normalizedCode coupon) payload (loadOffers file))
      as [(pre & x & post & Hl & Hpre & Hx & Hnew) | (Hall & Hnew)].
    - exists (mergeOffer x payload). rewrite Hfile, Hnew.
      split; [ | repeat split ].
      apply find_after_replace; try assumption.
      + rewrite Hl in Hloaded. apply Forall_app_l in Hloaded. exact Hloaded.
      + apply Hmatch. reflexivity.
    - exists payload. rewrite Hfile, Hnew.
      split; [ | repeat split ].
      apply find_after_replace; try assumption.
      apply Hmatch. reflexivity. }
  destruct Hfound as (y & -> & Hy1 & Hy2 & Hy3 & Hy4 & Hy5 & Hy6 & Hy7).
  rewrite checkOffer_passesGates.
  assert (Hgates : passesGates now planId (upgradeOffer y) = passesGates now planId payload).
  { unfold passesGates, isActive, windowStart, windowEnd, offerPlans, upgradeOffer.
    cbn [active enabled validity appliesTo applicablePlans startAt endAt].
    rewrite Hy5, Hy6, Hy7, Hpayload.
    cbn [offerPayload active validity appliesTo plans billingTypes countries arrayOrEmpty].
    reflexivity. }
  assert (Htype : type (upgradeOffer y) = type payload).
  { unfold upgradeOffer. cbn [type]. rewrite Hy2, Hpayload. cbn [offerPayload type].
    destruct Hty as [-> | ->]; reflexivity. }
  rewrite Hgates. destruct (passesGates now planId payload); [ | reflexivity ].
  split; [ reflexivity | ].
  split; [ exact Hy1 | ].
  split; [ exact Htype | ].
  split; [ exact Hy3 | ].
  split.
  { unfold upgradeOffer. cbn [used]. rewrite Hy4, Hpayload. reflexivity. }
  intros totalAmount. unfold applyOffer, rawDiscount, typeIs, amountOrZero.
  rewrite Htype. change (amount (upgradeOffer y)) with (amount y).
  change (code (upgradeOffer y)) with (code y). rewrite Hy1, Hy3. reflexivity.
Qed.

(** ** Enabling, disabling and deleting an offer *)

Lemma upgradeOffer_setActiveFlags (on : bool) (o : Offer) :
  upgradeOffer (setActiveFlags on (upgradeOffer o)) = setActiveFlags on (upgradeOffer o).
Proof.
  transitivity (setActiveFlags on (upgradeOffer (upgradeOffer o))).
  - generalize (upgradeOffer o). intros y. reflexivity.
  - rewrite upgradeOffer_idem. reflexivity.
Qed.

Lemma codeIs_eq (c : string) (o : Offer) : codeIs c o = true -> code o = Some c.
Proof.
  unfold codeIs. destruct (code o) as [s|]; [ | discriminate ].
  intros H. apply String.eqb_eq in H. congruence.
Qed.

Lemma codeIs_codeMatches (c : string) (o : Offer) :
  toUpperCase c = c -> codeIs c o = true -> codeMatches c o = true.
Proof.
  intros Hc H. apply codeIs_eq in H. unfold codeMatches.
  rewrite H, orString_Some, Hc. apply String.eqb_refl.
Qed.

(** What an accepted enable or disable request did. *)
Lemma patchOfferActive_accepted (on : bool) (file : list Offer) (codeUrl : option string)
    (r : option Offer) (file' : list Offer) :
  patchOfferActive on file codeUrl = (AdminOk r, file') ->
  exists pre x post,
    toUpperCase (orString codeUrl "") <> ""
    /\ loadOffers file = pre ++ x :: post
    /\ Forall (fun y => codeIs (toUpperCase (orString codeUrl "")) y = false) pre
    /\ codeIs (toUpperCase (orString codeUrl "")) x = true
    /\ r = Some (setActiveFlags on x)
    /\ file' = pre ++ setActiveFlags on x :: post.
Proof.
  unfold patchOfferActive. intros H.
  destruct (String.eqb (toUpperCase (orString codeUrl "")) "") eqn:Hc; [ discriminate H | ].
  destruct (findIndex (codeIs (toUpperCase (orString codeUrl ""))) (loadOffers file))
    as [idx|] eqn:Hidx; [ | discriminate H ].
  apply findIndex_Some in Hidx.
  destruct Hidx as (pre & x & post & Hl & Hpre & Hx & Hnth & Hfirst & Hskip).
  rewrite Hnth, Hfirst, Hskip in H. inversion H; subst r file'.
  exists pre, x, post. repeat split; try assumption.
  apply String.eqb_neq. exact Hc.
Qed.

(** X13.  Enabling and disabling take effect on coupon resolution.  In a
    file whose stored codes are in upper case, after an accepted enable
    ([on = true]) or disable ([on = false]) request for a code, every coupon
    that trims and upper-cases to that code is checked against the very
    record the route returned, whose active flag is [on]: after a disable the
    coupon never resolves, after an enable only the validity window and the
    plan list decide. *)
Theorem enable_and_disable_decide_whether_the_coupon_resolves
    (on : bool) (file file' : list Offer) (codeUrl coupon : string) (o : Offer)
    (now : Z) (planId : string) :
  Forall upperCode file ->
  patchOfferActive on file (Some codeUrl) = (AdminOk (Some o), file') ->
  normalizedCode coupon = toUpperCase codeUrl ->
  validateOfferForPlan file' now planId (Some coupon) = checkOffer now planId o
  /\ isActive o = on
  /\ (on = false -> validateOfferForPlan file' now planId (Some coupon) = Invalid).
Proof.
  intros Hup Hpatch Hcoupon.
  destruct (patchOfferActive_accepted on file (Some codeUrl) _ file' Hpatch)
    as (pre & x & post & Hne & Hl & Hpre & Hx & Hr & Hfile).
  rewrite orString_Some in Hne, Hpre, Hx. rewrite <- Hcoupon in Hne, Hpre, Hx.
  injection Hr as Ho.
  assert (Hloaded : Forall upperCode (loadOffers file)) by (apply loadOffers_upperCode; exact Hup).
  assert (Hx0 : exists x0, x = upgradeOffer x0).
  { unfold loadOffers in Hl.
    assert (Hin : In x (map upgradeOffer file)) by (rewrite Hl; apply in_elt).
    apply in_map_iff in Hin. destruct Hin as (x0 & Hx0 & _). exists x0. auto. }
  destruct Hx0 as (x0 & Hx0).
  assert (Hres : validateOfferForPlan file' now planId (Some coupon) = checkOffer now planId o).
  { rewrite validateOfferForPlan_find by (apply normalizedCode_nonempty; exact Hne).
    fold (normalizedCode coupon). rewrite Hfile, find_after_replace; try assumption.
    - rewrite Ho, Hx0, upgradeOffer_setActiveFlags. reflexivity.
    - rewrite Hl in Hloaded. apply Forall_app_l in Hloaded. exact Hloaded.
    - apply (codeIs_codeMatches (normalizedCode coupon) (setActiveFlags on x)).
      + apply normalizedCode_upper.
      + exact Hx. }
  assert (Hact : isActive o = on) by (rewrite Ho; reflexivity).
  split; [ exact Hres | split; [ exact Hact | ] ].
  intros Hoff. rewrite Hres. unfold checkOffer. rewrite Hact, Hoff. reflexivity.
Qed.




(** ** The legacy PATCH route *)

Lemma applyPatch_code (patch : OfferPatch) (current o : Offer) :
  applyPatch patch current = Some o -> code o = code current.
Proof.
  unfold applyPatch. intros H.
  repeat match type of H with
         | match ?x with _ => _ end = _ => destruct x; try discriminate H
         end.
  all: inversion H; reflexivity.
Qed.



(** What an accepted legacy PATCH did. *)
Lemma patchAdminOffer_accepted (file : list Offer) (codeUrl : option string)
    (patch : OfferPatch) (r : option Offer) (file' : list Offer) :
  patchAdminOffer file codeUrl patch = (AdminOk r, file') ->
  exists pre x post o,
    toUpperCase (orString codeUrl "") <> ""
    /\ loadOffers file = pre ++ x :: post
    /\ Forall (fun y => codeIs (toUpperCase (orString codeUrl "")) y = false) pre
    /\ codeIs (toUpperCase (orString codeUrl "")) x = true
    /\ applyPatch patch x = Some o
    /\ r = Some o
    /\ file' = pre ++ o :: post.
Proof.
  unfold patchAdminOffer. intros H.
  destruct (String.eqb (toUpperCase (orString codeUrl "")) "") eqn:Hc; [ discriminate H | ].
  destruct (findIndex (codeIs (toUpperCase (orString codeUrl ""))) (loadOffers file))
    as [idx|] eqn:Hidx; [ | discriminate H ].
  apply findIndex_Some in Hidx.
  destruct Hidx as (pre & x & post & Hl & Hpre & Hx & Hnth & Hfirst & Hskip).
  rewrite Hnth, Hfirst, Hskip in H.
  destruct (applyPatch patch x) as [o|] eqn:Hp; [ | discriminate H ].
  inversion H; subst r file'.
  exists pre, x, post, o. repeat split; try assumption.
  apply String.eqb_neq. exact Hc.
Qed.

Lemma applyPatch_clears_plans (patch : OfferPatch) (p : AppliesToPatch)
    (ps : list (option string)) (current o : Offer) :
  patch_appliesTo patch = Some p -> patch_plans p = Some ps -> cleanStrings ps = [] ->
  applyPatch patch current = Some o ->
  exists cs, appliesTo o = Some {| plans := Some []; billingTypes := Some []; countries := cs |}.
Proof.
  intros Hp Hps Hclean. unfold applyPatch. rewrite Hp, Hps.
  destruct (appliesTo current) as [a|]; [ | discriminate ].
  intros H.
  repeat match type of H with
         | match ?x with _ => _ end = _ => destruct x; try discriminate H
         end.
  all: inversion H; cbn [appliesTo]; unfold patchAppliesTo; rewrite Hps, Hclean;
    destruct (patch_countries p); eexists; reflexivity.
Qed.

(** X15.  The legacy PATCH route can leave an offer without plans, which
    POST refuses.  When the patch carries a plan array whose entries are all
    blank (the empty array included), the request is accepted, the stored
    offer gets an empty plan list and empty billing types, and, in a file
    whose stored codes are in upper case, its coupon then resolves alike for
    every plan id: the plan restriction is gone. *)
Theorem patch_can_lift_the_plan_restriction
    (file file' : list Offer) (codeUrl : string) (patch : OfferPatch)
    (p : AppliesToPatch) (ps : list (option string)) (o : Offer) :
  Forall upperCode file ->
  patch_appliesTo patch = Some p -> patch_plans p = Some ps -> cleanStrings ps = [] ->
  patchAdminOffer file (Some codeUrl) patch = (AdminOk (Some o), file') ->
  offerPlans o = []
  /\ (exists cs, appliesTo o = Some {| plans := Some []; billingTypes := Some [];
                                       countries := cs |})
  /\ forall (now : Z) (coupon planId planId' : string),
       normalizedCode coupon = toUpperCase codeUrl ->
       validateOfferForPlan file' now planId (Some coupon)
       = validateOfferForPlan file' now planId' (Some coupon).
Proof.
  intros Hup Hp Hps Hclean Hpatch.
  destruct (patchAdminOffer_accepted file (Some codeUrl) patch _ file' Hpatch)
    as (pre & x & post & o1 & Hne & Hl & Hpre & Hx & Happly & Hr & Hfile).
  injection Hr as <-.
  rewrite orString_Some in Hne, Hpre, Hx.
  destruct (applyPatch_clears_plans patch p ps x o Hp Hps Hclean Happly) as (cs & Hap).
  assert (Hplans : offerPlans o = []) by (unfold offerPlans; rewrite Hap; reflexivity).
  split; [ exact Hplans | split; [ exists cs; exact Hap | ] ].
  intros now coupon planId planId' Hcoupon. rewrite <- Hcoupon in Hne, Hpre, Hx.
  assert (Hloaded : Forall upperCode (loadOffers file)) by (apply loadOffers_upperCode; exact Hup).
  assert (Hfind : find (codeMatches (normalizedCode coupon)) (loadOffers file')
                  = Some (upgradeOffer o)).
  { rewrite Hfile. apply find_after_replace; try assumption.
    - rewrite Hl in Hloaded. apply Forall_app_l in Hloaded. exact Hloaded.
    - apply codeIs_codeMatches; [ apply normalizedCode_upper | ].
      unfold codeIs. rewrite (applyPatch_code patch x o Happly).
      exact Hx. }
  rewrite !validateOfferForPlan_find by (apply normalizedCode_nonempty; exact Hne).
  fold (normalizedCode coupon). rewrite Hfind, !checkOffer_passesGates.
  assert (Hup_plans : offerPlans (upgradeOffer o) = []).
  { unfold offerPlans, upgradeOffer. cbn [appliesTo applicablePlans]. rewrite Hap.
    reflexivity. }
  unfold passesGates. rewrite Hup_plans. reflexivity.
Qed.

(** ** What the admin API keeps true of offers.json *)




Lemma storedCodes_cons (o : Offer) (l : list Offer) :
  storedCodes (o :: l)
  = match code o with Some c => [c] | None => [] end ++ storedCodes l.
Proof. reflexivity. Qed.

Lemma storedCodes_loadOffers (file : list Offer) : storedCodes (loadOffers file) = storedCodes file.
Proof.
  unfold loadOffers. induction file as [|o file IH]; [ reflexivity | ].
  cbn [map]. rewrite !storedCodes_cons, IH. reflexivity.
Qed.















(** ** Amounts of the order routes *)

Lemma Math_round_inject_Z (z : Z) : Math_round (inject_Z z) = z.
Proof.
  pose proof (Math_round_spec (inject_Z z)) as [Hle Hlt].
  assert (H1 : (inject_Z (Math_round (inject_Z z)) < inject_Z (z + 1))%Q).
  { eapply Qle_lt_trans; [ exact Hle | ].
    rewrite inject_Z_plus. apply Qplus_lt_r. reflexivity. }
  assert (H2 : (inject_Z (z - 1) < inject_Z (Math_round (inject_Z z)))%Q).
  { eapply Qle_lt_trans; [ | exact Hlt ].
    unfold Z.sub. rewrite inject_Z_plus. unfold Qminus. apply Qplus_le_r. discriminate. }
  rewrite <- Zlt_Qlt in H1, H2. lia.
Qed.

Lemma integral_iff (x : Q) : integral x <-> exists z, (x == inject_Z z)%Q.
Proof.
  unfold integral. split.
  - intros H. exists (Qfloor x). symmetry. exact H.
  - intros (z & Hz). rewrite (Qfloor_comp _ _ Hz), Qfloor_Z. symmetry. exact Hz.
Qed.

Lemma integral_inject_Z (z : Z) : integral (inject_Z z).
Proof. apply integral_iff. exists z. reflexivity. Qed.

Lemma integral_plus (x y : Q) : integral x -> integral y -> integral (x + y).
Proof.
  rewrite !integral_iff. intros (a & Ha) (b & Hb). exists (a + b).
  rewrite Ha, Hb, inject_Z_plus. reflexivity.
Qed.

Lemma integral_minus (x y : Q) : integral x -> integral y -> integral (x - y).
Proof.
  rewrite !integral_iff. intros (a & Ha) (b & Hb). exists (a - b).
  rewrite Ha, Hb. unfold Z.sub, Qminus. rewrite inject_Z_plus, inject_Z_opp. reflexivity.
Qed.

(** For a whole number of rupees, [Math.round(x * 100)] is exactly [100 x]. *)
Lemma paise_exact (x : Q) : integral x -> (inject_Z (Math_round (x * 100)) == x * 100)%Q.
Proof.
  intros H. apply integral_iff in H. destruct H as (z & Hz).
  assert (Hm : (x * 100 == inject_Z (z * 100))%Q).
  { rewrite Hz, inject_Z_mult. reflexivity. }
  rewrite (Math_round_Proper _ _ Hm), Math_round_inject_Z, Hm. reflexivity.
Qed.

Lemma rawDiscount_integral (totalAmount : Q) (o : Offer) : integral (rawDiscount totalAmount o).
Proof.
  unfold rawDiscount. destruct (typeIs o "PERCENT"); [ apply integral_inject_Z | ].
  destruct (typeIs o "FIXED"); apply integral_inject_Z.
Qed.

Lemma clampDiscount_integral (totalAmount d : Q) :
  integral totalAmount -> integral d -> integral (clampDiscount totalAmount d).
Proof.
  intros Ht Hd. unfold clampDiscount.
  destruct (Qltb d 0).
  - destruct (Qltb totalAmount 0); [ exact Ht | apply (integral_inject_Z 0) ].
  - destruct (Qltb totalAmount d); assumption.
Qed.

(** The amounts both order routes send to the gateway, for a quote whose
    total is a whole, non-negative number of rupees. *)
Lemma draftOrder_amounts (file : list Offer) (now : Z) (planId bt : string) (q : Quote)
    (coupon : option string) :
  integral (total q) -> (0 <= total q)%Q ->
  let d := draftOrder file now planId bt q coupon in
  order_planId d = planId /\ order_billingType d = bt /\ order_pricing d = q
  /\ (inject_Z (order_amountInPaise d) == order_finalAmount d * 100)%Q
  /\ (0 <= order_discount d)%Q /\ (order_discount d <= total q)%Q
  /\ (order_finalAmount d == total q - order_discount d)%Q
  /\ (0 <= order_finalAmount d)%Q
  /\ (order_offer d = None <-> validateOfferForPlan file now planId coupon = Invalid).
Proof.
  intros Hint Hpos. unfold draftOrder.
  destruct (validateOfferForPlan file now planId coupon) as [|offer];
    cbn [order_planId order_billingType order_pricing order_amountInPaise order_discount
         order_finalAmount order_offer applyOffer discount final].
  - repeat split; try reflexivity; try assumption.
    + apply paise_exact. exact Hint.
    + apply Qle_refl.
    + unfold Qminus. rewrite Qplus_0_r. reflexivity.
  - destruct (clampDiscount_bounds (total q) (rawDiscount (total q) offer) Hpos) as [H0 H1].
    repeat split; try reflexivity; try assumption; try discriminate.
    + apply paise_exact, integral_minus; [ exact Hint | ].
      apply clampDiscount_integral; [ exact Hint | apply rawDiscount_integral ].
    + unfold Qminus. rewrite <- Qle_minus_iff. exact H1.
Qed.

Lemma ownProperty_In (obj : list (string * Q)) (key : string) (v : Q) :
  ownProperty obj key = Some v -> In (key, v) obj.
Proof.
  induction obj as [|[k w] obj IH]; cbn [ownProperty]; [ discriminate | ].
  destruct (String.eqb k key) eqn:E.
  - apply String.eqb_eq in E. intros H. inversion H; subst. left. reflexivity.
  - intros H. right. exact (IH H).
Qed.

Lemma withGst_total (india : bool) (b : Q) :
  integral b -> (0 <= b)%Q ->
  integral (total (withGst india b)) /\ (0 <= total (withGst india b))%Q
  /\ base (withGst india b) = b.
Proof.
  intros Hint Hpos. unfold withGst. cbn [total base]. destruct india.
  - split; [ apply integral_plus; [ exact Hint | apply integral_inject_Z ] | ].
    split; [ | reflexivity ].
    rewrite <- (Qplus_0_r 0). apply Qplus_le_compat; [ exact Hpos | ].
    change 0%Q with (inject_Z 0). rewrite <- Zle_Qle. apply Math_round_nonneg.
    apply Qmult_le_0_compat; [ exact Hpos | discriminate ].
  - split; [ apply integral_plus; [ exact Hint | apply (integral_inject_Z 0) ] | ].
    split; [ | reflexivity ].
    rewrite Qplus_0_r. exact Hpos.
Qed.

(** What [computeEnterprisePrice] returns when it returns a quote. *)
Lemma computeEnterprisePrice_priced (pkg : string) (billingType country : option string)
    (q : Quote) :
  computeEnterprisePrice pkg billingType country = Priced q ->
  exists monthly,
    In (pkg, monthly) ENTERPRISE_BASE_PRICES
    /\ integral (total q) /\ (0 <= total q)%Q
    /\ base q = if String.eqb pkg "consultation" then 5000%Q
                else if String.eqb (billingLower billingType) "yearly"
                     then yearlyBase monthly else monthly.
Proof.
  unfold computeEnterprisePrice, get_property.
  destruct (ownProperty ENTERPRISE_BASE_PRICES pkg) as [m|] eqn:Hown.
  - apply ownProperty_In in Hown. intros H. exists m. split; [ exact Hown | ].
    assert (Hm : integral m /\ (0 <= m)%Q /\ Qeq_bool m 0 = false).
    { cbn [In ENTERPRISE_BASE_PRICES] in Hown.
      destruct Hown as [E | [E | [E | [E | []]]]]; inversion E; subst;
        (split; [ apply (integral_inject_Z _) | split; [ discriminate | reflexivity ] ]). }
    destruct Hm as (Hint & Hpos & Hnz). rewrite Hnz in H.
    assert (Hc : ownProperty ENTERPRISE_BASE_PRICES "consultation" = Some 5000%Q)
      by reflexivity.
    rewrite Hc in H. inversion H as [Hq]. clear H.
    set (b := if String.eqb pkg "consultation" then 5000%Q
              else if String.eqb (billingLower billingType) "yearly"
                   then yearlyBase m else m).
    assert (Hb : integral b /\ (0 <= b)%Q).
    { unfold b. destruct (String.eqb pkg "consultation");
        [ split; [ apply (integral_inject_Z 5000) | discriminate ] | ].
      destruct (String.eqb (billingLower billingType) "yearly");
        [ | split; assumption ].
      split; [ apply integral_inject_Z | apply yearlyBase_nonneg; exact Hpos ]. }
    destruct (withGst_total (isIndia country) b (proj1 Hb) (proj2 Hb)) as (H1 & H2 & H3).
    auto.
  - destruct (includes Object_prototype_members pkg); discriminate.
Qed.



(** X18.  The consultation flag overrides the billing type.  When the body
    carries a truthy [isConsultation] and the order is created, the billing
    type is "one_time" whatever [billingType] said, and the base price is
    the table price of the named package: for a recurring package the yearly
    amount is never charged, and the plan id remains that of the package
    (ENT_60, ENT_90 or ENT_120), not ENT_CONSULTATION. *)
Theorem consultation_flag_forces_one_time_billing
    (file : list Offer) (now : Z) (body : EnterpriseBody) (d : OrderDraft) :
  ent_isConsultation body = true ->
  createEnterpriseOrder file now body = OrderReady d ->
  order_billingType d = "one_time"
  /\ ownProperty ENTERPRISE_BASE_PRICES (orString (ent_package body) "")
     = Some (base (order_pricing d))
  /\ order_planId d = getEnterprisePlanId (orString (ent_package body) "") "one_time".
Proof.
  intros Hflag. unfold createEnterpriseOrder. rewrite Hflag, orb_true_r. intros H.
  destruct (falsyString (ent_fullName body) || falsyString (ent_email body)
            || falsyString (ent_package body)); [ discriminate H | ].
  destruct (match ent_gstStatus body with Some s => String.eqb s "yes" | None => false end
            && falsyString (ent_company body)); [ discriminate H | ].
  set (pkg := orString (ent_package body) "") in *.
  destruct (computeEnterprisePrice pkg (Some "one_time") (ent_country body))
    as [q | m | m] eqn:Hq; [ | discriminate H | discriminate H ].
  inversion H as [Hd]. clear H.
  destruct (computeEnterprisePrice_priced pkg (Some "one_time") (ent_country body) q Hq)
    as (monthly & Hin & Hint & Hpos & Hbase).
  destruct (draftOrder_amounts file now (getEnterprisePlanId pkg "one_time") "one_time" q
              (ent_coupon body) Hint Hpos) as (H1 & H2 & H3 & _).
  rewrite H1, H2, H3, Hbase.
  split; [ reflexivity | split; [ | reflexivity ] ].
  change (String.eqb (billingLower (Some "one_time")) "yearly") with false.
  cbn [In ENTERPRISE_BASE_PRICES] in Hin.
  destruct Hin as [E | [E | [E | [E | []]]]]; inversion E; subst; reflexivity.
Qed.



(** ** The public validation route *)





(** ** Admin authentication *)

(** X22.  The admin routes fail closed.  [requireAdminSecret] lets a
    request through exactly when [ADMIN_OFFERS_SECRET] is configured, not
    empty, and equal to the [x-admin-secret] header; every other request is
    answered 401.  In particular, with the secret unset no request passes,
    not even one without the header. *)
Theorem admin_routes_need_the_configured_secret (configured header : option string) :
  (requireAdminSecret configured header = AuthNext
   <-> exists s, s <> "" /\ configured = Some s /\ header = Some s)
  /\ (requireAdminSecret configured header <> AuthNext ->
      exists e, requireAdminSecret configured header = AuthRejected 401 e).
Proof.
  unfold requireAdminSecret. split.
  - split.
    + destruct (String.eqb (orString header "") "") eqn:Hh; [ discriminate | ].
      destruct configured as [s|]; [ | discriminate ].
      destruct (String.eqb (orString header "") s) eqn:Hs; [ | discriminate ].
      intros _. apply String.eqb_eq in Hs. apply String.eqb_neq in Hh.
      exists s. split; [ congruence | split; [ reflexivity | ] ].
      destruct header as [h|].
      * rewrite orString_Some in Hs. congruence.
      * exfalso. apply Hh. reflexivity.
    + intros (s & Hs & -> & ->). rewrite orString_Some.
      rewrite (eqb_nonempty s Hs), String.eqb_refl. reflexivity.
  - intros H.
    destruct (String.eqb (orString header "") ""); [ eexists; reflexivity | ].
    destruct configured as [s|]; [ | eexists; reflexivity ].
    destruct (String.eqb (orString header "") s); [ contradiction | eexists; reflexivity ].
Qed.

(** ** The properties above on concrete requests *)

Lemma posted_offer_is_the_one_its_coupon_resolves_to_witness :
  postAdminOffer [] sampleOfferBody = (AdminOk (Some SAVE10), [SAVE10])
  /\ match validateOfferForPlan [SAVE10] 1700000000000 "ENT_90" (Some "save10 ") with
     | Valid o =>
         passesGates 1700000000000 "ENT_90" SAVE10 = true
         /\ code o = code SAVE10 /\ type o = type SAVE10 /\ amount o = amount SAVE10
         /\ used o = Some 0%Q
         /\ forall totalAmount,
              applyOffer totalAmount (Some o) = applyOffer totalAmount (Some SAVE10)
     | Invalid => passesGates 1700000000000 "ENT_90" SAVE10 = false
     end.
Proof.
  split; [ reflexivity | ].
  apply (posted_offer_is_the_one_its_coupon_resolves_to [] [SAVE10] sampleOfferBody SAVE10
           1700000000000 "ENT_90" "save10 ").
  - constructor.
  - reflexivity.
  - reflexivity.
  - vm_compute. discriminate.
Defined.

Lemma enable_and_disable_decide_whether_the_coupon_resolves_witness :
  let off := setActiveFlags false (upgradeOffer SAVE10) in
  patchOfferActive false [WELCOME5; SAVE10] (Some "save10")
  = (AdminOk (Some off), [upgradeOffer WELCOME5; off])
  /\ validateOfferForPlan [upgradeOffer WELCOME5; off] 1700000000000 "ENT_90" (Some " Save10")
     = Invalid.
Proof.
  intros off. split; [ reflexivity | ].
  apply (enable_and_disable_decide_whether_the_coupon_resolves false [WELCOME5; SAVE10]
           [upgradeOffer WELCOME5; off] "save10" " Save10" off 1700000000000 "ENT_90").
  - repeat constructor.
  - reflexivity.
  - reflexivity.
  - reflexivity.
Defined.


Lemma patch_can_lift_the_plan_restriction_witness :
  exists o file',
    patchAdminOffer [SAVE10] (Some "save10") clearPlansPatch = (AdminOk (Some o), file')
    /\ validateOfferForPlan [SAVE10] 1700000000000 "SP_PRO" (Some "SAVE10") = Invalid
    /\ offerPlans o = []
    /\ validateOfferForPlan file' 1700000000000 "SP_PRO" (Some "SAVE10")
       = validateOfferForPlan file' 1700000000000 "ENT_90" (Some "SAVE10").
Proof.
  eexists. eexists. split; [ reflexivity | ].
  split; [ reflexivity | ].
  match goal with
  | |- offerPlans ?o = [] /\ validateOfferForPlan ?f _ _ _ = _ =>
      pose proof (patch_can_lift_the_plan_restriction [SAVE10] f "save10" clearPlansPatch
                    {| patch_plans := Some []; patch_countries := None |} [] o
                    ltac:(repeat constructor) eq_refl eq_refl eq_refl eq_refl) as H
  end.
  destruct H as (H1 & _ & H3).
  split; [ exact H1 | ].
  exact (H3 1700000000000 "SAVE10" "SP_PRO" "ENT_90" eq_refl).
Defined.



Lemma consultation_flag_forces_one_time_billing_witness :
  exists d,
    createEnterpriseOrder [SAVE10] 1700000000000 (sampleEnterpriseBody "90" "yearly" true)
    = OrderReady d
    /\ order_billingType d = "one_time"
    /\ ownProperty ENTERPRISE_BASE_PRICES "90" = Some (base (order_pricing d))
    /\ order_planId d = getEnterprisePlanId "90" "one_time".
Proof.
  eexists. split; [ reflexivity | ].
  apply (consultation_flag_forces_one_time_billing [SAVE10] 1700000000000
           (sampleEnterpriseBody "90" "yearly" true)).
  - reflexivity.
  - reflexivity.
Defined.

(** ** POST as an upsert *)

Lemma upsertOffer_at (c : string) (payload : Offer) (pre post : list Offer) (y : Offer) :
  Forall (fun o => codeIs c o = false) pre -> codeIs c y = true ->
  upsertOffer c payload (pre ++ y :: post) = pre ++ mergeOffer y payload :: post.
Proof.
  intros Hpre Hy. unfold upsertOffer.
  assert (Hidx : findIndex (codeIs c) (pre ++ y :: post) = Some (length pre)).
  { induction Hpre as [|o pre Ho _ IH]; cbn [app findIndex length].
    - rewrite Hy. reflexivity.
    - rewrite Ho, IH. reflexivity. }
  rewrite Hidx.
  assert (Hnth : nth_error (pre ++ y :: post) (length pre) = Some y).
  { clear. induction pre as [|o pre IH]; [ reflexivity | exact IH ]. }
  rewrite Hnth.
  assert (Hfirst : firstn (length pre) (pre ++ y :: post) = pre).
  { clear. induction pre as [|o pre IH]; [ reflexivity | ].
    cbn [app length firstn]. rewrite IH. reflexivity. }
  assert (Hskip : skipn (S (length pre)) (pre ++ y :: post) = post).
  { clear. induction pre as [|o pre IH]; [ reflexivity | exact IH ]. }
  rewrite Hfirst, Hskip. reflexivity.
Qed.

Lemma loaded_fixed (file : list Offer) :
  Forall (fun o => upgradeOffer o = o) (loadOffers file).
Proof.
  unfold loadOffers. induction file as [|o file IH]; cbn [map]; constructor;
    [ apply upgradeOffer_idem | exact IH ].
Qed.

Lemma map_fixed {A : Type} (f : A -> A) (l : list A) :
  Forall (fun x => f x = x) l -> map f l = l.
Proof.
  intros H. induction H as [|x l Hx _ IH]; cbn [map]; [ reflexivity | ].
  rewrite Hx, IH. reflexivity.
Qed.

Lemma Forall_app_r {A : Type} (P : A -> Prop) (l1 l2 : list A) :
  Forall P (l1 ++ l2) -> Forall P l2.
Proof.
  induction l1 as [|a l1 IH]; cbn [app]; intros H; [ exact H | ].
  inversion H; subst. auto.
Qed.

Lemma mergeOffer_upgradeOffer (y payload : Offer) :
  mergeOffer (upgradeOffer y) payload = mergeOffer y payload.
Proof. reflexivity. Qed.

Lemma mergeOffer_merged (x payload : Offer) :
  mergeOffer (mergeOffer x payload) payload = mergeOffer x payload.
Proof. reflexivity. Qed.

Lemma filter_all {A : Type} (f : A -> bool) (l : list A) :
  Forall (fun x => f x = true) l -> List.filter f l = l.
Proof.
  intros H. induction H as [|x l Hx _ IH]; cbn [List.filter]; [ reflexivity | ].
  rewrite Hx, IH. reflexivity.
Qed.

(** Whether a POST is accepted, and with which offer, does not depend on
    the file. *)
Lemma postAdminOffer_other_file (file1 file2 : list Offer) (body : OfferBody)
    (r : option Offer) (f1 : list Offer) :
  postAdminOffer file1 body = (AdminOk r, f1) ->
  exists payload c,
    r = Some payload /\ code payload = Some c /\ toUpperCase c = c
    /\ enabled payload = None /\ applicablePlans payload = None
    /\ flatBillingTypes payload = None /\ flatCountries payload = None
    /\ startAt payload = None /\ endAt payload = None /\ notes payload = None
    /\ f1 = upsertOffer c payload (loadOffers file1)
    /\ postAdminOffer file2 body = (AdminOk r, upsertOffer c payload (loadOffers file2)).
Proof.
  unfold postAdminOffer. intros H.
  destruct (falsyString (body_code body) || falsyString (body_type body)
            || match body_amount body with None => true | Some _ => false end);
    [ discriminate H | ].
  destruct (match body_amount body with Some n => n | None => None end) as [a|];
    [ | discriminate H ].
  destruct (Qeq_bool a 0 || Qle_bool a 0); [ discriminate H | ].
  destruct (negb (includes ["PERCENT"; "FIXED"]
                    (toUpperCase (trim (orString (body_type body) ""))))); [ discriminate H | ].
  destruct (match body_plans body with Some ps => cleanStrings ps | None => [] end)
    as [|p0 ps0]; [ discriminate H | ].
  inversion H; subst r f1.
  eexists. exists (toUpperCase (trim (orString (body_code body) ""))).
  repeat split; try reflexivity.
  apply toUpperCase_idem.
Qed.

(** X23.  POST is an idempotent upsert: sending the same body a second
    time gives the same response and leaves offers.json exactly as the first
    request left it, whether the request is rejected, adds a record or
    replaces one. *)
Theorem post_offer_twice_is_post_once (file : list Offer) (body : OfferBody) :
  postAdminOffer (snd (postAdminOffer file body)) body = postAdminOffer file body.
Proof.
  destruct (postAdminOffer file body) as [[st e | r] file'] eqn:H; cbn [snd].
  - destruct (postAdminOffer_rejected file body st e file' H) as [_ ->]. exact H.
  - destruct (postAdminOffer_other_file file file' body r file' H)
      as (payload & c & -> & Hcode & Hc & He & Hap & Hfb & Hfc & Hsa & Hea & Hn & Hfile & Hagain).
    rewrite Hagain. f_equal.
    assert (Hcp : forall y, code y = Some c -> codeIs c y = true).
    { intros y Hy. unfold codeIs. rewrite Hy. apply String.eqb_refl. }
    pose proof (loaded_fixed file) as Hfixed.
    destruct (upsertOffer_shape c payload (loadOffers file))
      as [(pre & x & post & Hl & Hpre & Hx & Hnew) | (Hall & Hnew)];
      rewrite Hfile, Hnew; unfold loadOffers at 1; rewrite map_app; cbn [map].
    + rewrite Hl in Hfixed.
      rewrite (map_fixed upgradeOffer pre (Forall_app_l _ _ _ Hfixed)).
      assert (Hpost : Forall (fun o => upgradeOffer o = o) post).
      { apply Forall_app_r in Hfixed. inversion Hfixed; assumption. }
      rewrite (map_fixed upgradeOffer post Hpost).
      rewrite upsertOffer_at; [ reflexivity | exact Hpre | apply Hcp; exact Hcode ].
    + rewrite (map_fixed upgradeOffer _ Hfixed).
      rewrite upsertOffer_at; [ | exact Hall | apply Hcp; exact Hcode ].
      f_equal. rewrite mergeOffer_upgradeOffer.
      destruct payload as [pc pt pa pd pact pen pap pul pus pv papl pfb pfc psa pea pn].
      cbn [enabled applicablePlans flatBillingTypes flatCountries startAt endAt notes] in *.
      subst. reflexivity.
Qed.

(** X24.  DELETE undoes the POST of a new code.  If an accepted POST
    created an offer whose (non-empty) code the file did not hold before,
    then a DELETE for that code is accepted and leaves the file as it was
    loaded before the POST. *)
Theorem delete_undoes_the_post_of_a_new_code
    (file file' : list Offer) (body : OfferBody) (payload : Offer) (c : string) :
  postAdminOffer file body = (AdminOk (Some payload), file') ->
  code payload = Some c -> c <> "" -> ~ In c (storedCodes file) ->
  deleteAdminOffer file' (Some c) = (AdminOk None, loadOffers file).
Proof.
  intros Hpost Hcode Hne Hnew.
  destruct (postAdminOffer_other_file file file body _ file' Hpost)
    as (p & c' & Hp & Hcode' & Hc & _ & _ & _ & _ & _ & _ & _ & Hfile & _).
  injection Hp as <-. assert (c' = c) by congruence. subst c'.
  assert (Hall : Forall (fun y => codeIs c y = false) (loadOffers file)).
  { assert (H : forall l, ~ In c (storedCodes l) -> Forall (fun y => codeIs c y = false) l).
    { induction l as [|o l IH]; [ constructor | ].
      rewrite storedCodes_cons. intros Hin. constructor.
      - unfold codeIs. destruct (code o) as [s|]; [ | reflexivity ].
        apply String.eqb_neq. intros ->. apply Hin. left. reflexivity.
      - apply IH. intros H. apply Hin. apply in_or_app. right. exact H. }
    apply H. rewrite storedCodes_loadOffers. exact Hnew. }
  assert (Hf : file' = loadOffers file ++ [payload]).
  { rewrite Hfile. unfold upsertOffer.
    destruct (findIndex (codeIs c) (loadOffers file)) as [idx|] eqn:Hidx; [ | reflexivity ].
    exfalso. apply findIndex_Some in Hidx.
    destruct Hidx as (pre & x & post & Hl & _ & Hx & _).
    rewrite Hl in Hall. apply Forall_app_r in Hall. inversion Hall; congruence. }
  assert (Hload : loadOffers file' = loadOffers file ++ [upgradeOffer payload]).
  { rewrite Hf. unfold loadOffers at 1. rewrite map_app. cbn [map].
    fold (loadOffers (loadOffers file)). rewrite loadOffers_idem. reflexivity. }
  assert (Hpay : codeIs c (upgradeOffer payload) = true).
  { unfold codeIs. change (code (upgradeOffer payload)) with (code payload).
    rewrite Hcode. apply String.eqb_refl. }
  assert (Hfilter : List.filter (fun o => negb (codeIs c o))
                      (loadOffers file ++ [upgradeOffer payload]) = loadOffers file).
  { rewrite List.filter_app. cbn [List.filter]. rewrite Hpay. cbn [negb].
    rewrite app_nil_r. apply filter_all.
    clear - Hall. induction Hall as [|y l Hy _ IH]; constructor;
      [ rewrite Hy; reflexivity | exact IH ]. }
  unfold deleteAdminOffer. rewrite orString_Some, Hc, (eqb_nonempty c Hne).
  rewrite Hload, Hfilter, length_app. cbn [length].
  replace (Nat.eqb (length (loadOffers file)) (length (loadOffers file) + 1)) with false;
    [ reflexivity | ].
  symmetry. apply Nat.eqb_neq. lia.
Qed.

Lemma delete_undoes_the_post_of_a_new_code_witness :
  postAdminOffer [WELCOME5] sampleOfferBody
  = (AdminOk (Some SAVE10), [upgradeOffer WELCOME5; SAVE10])
  /\ deleteAdminOffer [upgradeOffer WELCOME5; SAVE10] (Some "SAVE10")
     = (AdminOk None, loadOffers [WELCOME5]).
Proof.
  split; [ reflexivity | ].
  apply (delete_undoes_the_post_of_a_new_code [WELCOME5] [upgradeOffer WELCOME5; SAVE10]
           sampleOfferBody SAVE10 "SAVE10").
  - reflexivity.
  - reflexivity.
  - discriminate.
  - cbn. intros [H | []]. discriminate H.
Defined.

(** ** Blank coupons *)

Lemma toUpperCase_empty (s : string) : String.eqb (toUpperCase s) "" = String.eqb s "".
Proof. destruct s; reflexivity. Qed.

Lemma find_ext_bool {A : Type} (f g : A -> bool) (l : list A) :
  (forall x, f x = g x) -> find f l = find g l.
Proof.
  intros H. induction l as [|a l IH]; cbn [find]; [ reflexivity | ].
  rewrite H, IH. reflexivity.
Qed.

(** X25.  A coupon made only of blanks is not treated as missing.  It
    passes the emptiness test of [validateOfferForPlan], is trimmed to the
    empty code, and resolves to the first stored record whose code is
    missing or empty, subject to the usual checks; without such a record it
    does not resolve. *)
Theorem blank_coupon_resolves_to_a_record_without_code
    (file : list Offer) (now : Z) (planId coupon : string) :
  coupon <> "" -> trim coupon = "" ->
  validateOfferForPlan file now planId (Some coupon)
  = match find (fun o => falsyString (code o)) (loadOffers file) with
    | Some o => checkOffer now planId o
    | None => Invalid
    end.
Proof.
  intros Hne Hblank. rewrite validateOfferForPlan_find by exact Hne.
  rewrite Hblank. change (toUpperCase "") with "".
  rewrite (find_ext_bool (codeMatches "") (fun o => falsyString (code o))); [ reflexivity | ].
  intros o. unfold codeMatches. rewrite toUpperCase_empty.
  destruct (code o) as [[|a s]|]; reflexivity.
Qed.

Lemma blank_coupon_resolves_to_a_record_without_code_witness :
  let nameless := currentOffer "" "PERCENT" 50%Q true [] in
  validateOfferForPlan [SAVE10; nameless] 1700000000000 "ENT_90" (Some "  ")
  = Valid (upgradeOffer nameless).
Proof.
  intros nameless.
  rewrite (blank_coupon_resolves_to_a_record_without_code [SAVE10; nameless]
             1700000000000 "ENT_90" "  ");
    [ reflexivity | discriminate | reflexivity ].
Defined.
